(** * The request dispatch pipeline of the SIMBA SDK client

    A shallow embedding of [simba_sdk/core/requests/client/base.py]
    (class [Client]) and of the generated endpoint methods of
    [simba_sdk/core/requests/client/credential/client.py] that take a
    [query_arguments] object.

    Python objects are modelled by the records below; a method of [Client]
    is a function in the monad [M], which threads the client object
    ([self]) and carries a raised exception as a value. *)

From Stdlib Require Import ZArith Ascii String.
From stdpp Require Import gmap strings list fin_maps.

Local Open Scope Z_scope.
Set Warnings "-register-all".

(** ** Python values *)

(** The values that flow through the client untyped: the result of
    [resp.json()], the [data] and [upload_file] arguments, query parameter
    values and stored tokens.  [PNone] is Python's [None].  Floats do not
    occur in the code paths modelled here and are left out. *)
Inductive pyvalue : Type :=
| PNone
| PBool (b : bool)
| PInt (n : Z)
| PStr (s : string)
| PList (xs : list pyvalue)
| PDict (kvs : list (string * pyvalue)).

(** Python truthiness, as tested by [if x:] and [not x]. *)
Definition truthy (v : pyvalue) : bool :=
  match v with
  | PNone => false
  | PBool b => b
  | PInt n => negb (n =? 0)
  | PStr s => negb (String.eqb s "")
  | PList xs => match xs with [] => false | _ => true end
  | PDict kvs => match kvs with [] => false | _ => true end
  end.

(** [v is None] *)
Definition is_none (v : pyvalue) : bool :=
  match v with PNone => true | _ => false end.

(** Lookup in the items of a dict. *)
Fixpoint dict_get (key : string) (kvs : list (string * pyvalue)) : option pyvalue :=
  match kvs with
  | [] => None
  | (k, v) :: rest => if String.eqb k key then Some v else dict_get key rest
  end.

(** ** Exceptions and outcomes *)

Inductive exn : Type :=
| RequestException (status_code : Z) (message : string)
| EnsureException (message : string)
| LookupError (message : string)
| KeyError (key : string)
| TypeError
| AttributeError
| JSONDecodeError
| ValidationError
| UnicodeDecodeError
| InvalidURL (message : string)
| OtherError (name : string).

Inductive outcome (A : Type) : Type :=
| Return (a : A)
| Raise (e : exn).
Arguments Return {A} a.
Arguments Raise {A} e.

(** ** Requests and responses *)

(** The arguments [Client] passes to [httpx.AsyncClient.build_request]:
    a request is identified with the arguments it was built from.  What
    httpx adds on its own (the default headers of the underlying client,
    the encoding of the body) is outside this model, so [headers] is the
    [headers=] argument, not the header map that goes over the wire. *)
Record Request : Type := mkRequest {
  method : string;
  url : string;
  data : pyvalue;
  files : pyvalue;
  params : option (gmap string pyvalue);
  headers : option (gmap string string);
  cookies : option (gmap string string)
}.

(** An [httpx.Response] as the client observes it: [status_code], [text]
    and the result of [json()].  [body_json] is the value [json()] returns,
    and [None] when [json()] raises; [json_failure] is the exception it
    then raises ([JSONDecodeError] for a body that is not JSON,
    [UnicodeDecodeError] for one that is not valid UTF-8). *)
Record Response : Type := mkResponse {
  status_code : Z;
  text : string;
  body_json : option pyvalue;
  json_failure : exn
}.

(** The [httpx.AsyncClient] held by a [Client], as far as the client uses
    it to build requests: [build_request] either returns the request or
    raises, for instance [httpx.InvalidURL] for a URL with a control
    character.  [request_failure] gives the exception raised for the given
    arguments, if any. *)
Record HttpxClient : Type := mkHttpxClient {
  request_failure : Request -> option exn
}.

(** ** The middleware manager and the transport behind it *)

(** [MiddlewareManager.send] is not part of the modelled sources: its
    behaviour is a parameter.  For a request it either delivers a response
    or raises, and invokes the transport some number of times on the way.
    The two logs record what the client has handed to it so far. *)
Record MiddlewareManager : Type := mkManager {
  mm_behaviour : Request -> outcome Response * nat;
  mm_handed : list Request;
  mm_transport_calls : nat
}.

Definition manager_send (mm : MiddlewareManager) (request : Request)
  : outcome Response * MiddlewareManager :=
  let '(r, n) := mm_behaviour mm request in
  (r, {| mm_behaviour := mm_behaviour mm;
         mm_handed := mm_handed mm ++ [request];
         mm_transport_calls := (mm_transport_calls mm + n)%nat |}).

(** ** The token store *)

(** Modelled from the spec: [BaseTokenStore]
    ([simba_sdk.core.requests.auth.token_store]) is not among the sources.
    The spec gives it two operations: [get_token(identifier)] returns the
    stored token or an absent value and does not raise; [set_token]
    stores or overwrites the token and its expiry for the identifier. *)
Class TokenStore (Store : Type) : Type := {
  get_token : Store -> string -> pyvalue;
  set_token : string -> pyvalue -> pyvalue -> Store -> Store;
  get_token_set_token : forall st identifier token expires,
    get_token (set_token identifier token expires st) identifier = token;
  get_token_set_token_ne : forall st identifier other token expires,
    identifier <> other ->
    get_token (set_token identifier token expires st) other = get_token st other
}.

(** Modelled from the spec: an in-memory implementation of that contract,
    a dict from identifier to token and expiry. *)
Definition MemoryTokenStore : Type := gmap string (pyvalue * pyvalue).

Definition memory_get_token (st : MemoryTokenStore) (identifier : string) : pyvalue :=
  match st !! identifier with
  | Some (token, _) => token
  | None => PNone
  end.

Definition memory_set_token (identifier : string) (token expires : pyvalue)
  (st : MemoryTokenStore) : MemoryTokenStore :=
  <[identifier := (token, expires)]> st.

#[export] Program Instance memory_token_store : TokenStore MemoryTokenStore := {|
  get_token := memory_get_token;
  set_token := memory_set_token
|}.
Next Obligation.
  intros. unfold memory_get_token, memory_set_token.
  unfold MemoryTokenStore in *. by rewrite lookup_insert_eq.
Qed.
Next Obligation.
  intros. unfold memory_get_token, memory_set_token.
  unfold MemoryTokenStore in *. by rewrite lookup_insert_ne.
Qed.

(** ** Settings *)

(** [simba_sdk.config.settings]: the values the client reads. *)
Record Settings : Type := mkSettings {
  CLIENT_ID : string;
  CLIENT_SECRET : string;
  TOKEN_URL : string
}.

(** ** The client *)

Section Dispatch.

Context {Store : Type} `{TokenStore Store}.

Variable settings : Settings.

(** Python's [str()] of a value that is not already a string (the
    interpreter's rendering of numbers, lists and dicts). *)
Variable py_repr : pyvalue -> string.

(** [model_validate] of the pydantic model class with the given name. *)
Variable Model : Type.
Variable model_validate : string -> pyvalue -> option Model.

(** [str(v)] and [f"{v}"] *)
Definition py_str (v : pyvalue) : string :=
  match v with
  | PStr s => s
  | _ => py_repr v
  end.

(** The attributes of a [Client] object that its methods read or write.
    [token_store] is [None] when no store was registered at construction;
    a registered store object counts as true in [if self.token_store]. *)
Record Client : Type := mkClient {
  _base_url : string;
  _client : HttpxClient;
  token_store : option Store;
  middleware_manager : MiddlewareManager
}.

(** A method: runs on [self], returns or raises, and leaves [self] in a
    possibly different state. *)
Definition M (A : Type) : Type := Client -> outcome A * Client.

Definition ret {A} (a : A) : M A := fun self => (Return a, self).

Definition raise {A} (e : exn) : M A := fun self => (Raise e, self).

Definition bind {A B} (m : M A) (k : A -> M B) : M B :=
  fun self =>
    match m self with
    | (Return a, self') => k a self'
    | (Raise e, self') => (Raise e, self')
    end.

Notation "'let*' x := m 'in' k" := (bind m (fun x => k))
  (at level 10, x name, m at level 100, k at level 200).

(** [try: body except caught: handler] *)
Definition try_except {A} (body : M A) (caught : exn -> bool) (handler : M A) : M A :=
  fun self =>
    match body self with
    | (Return a, self') => (Return a, self')
    | (Raise e, self') => if caught e then handler self' else (Raise e, self')
    end.

(** [resp.json()] *)
Definition resp_json (resp : Response) : M pyvalue :=
  match body_json resp with
  | Some v => ret v
  | None => raise (json_failure resp)
  end.

(** [v[key]] for a string key. *)
Definition subscript (v : pyvalue) (key : string) : M pyvalue :=
  match v with
  | PDict kvs =>
      match dict_get key kvs with
      | Some x => ret x
      | None => raise (KeyError key)
      end
  | _ => raise TypeError
  end.

(** [self._client.build_request(...)] *)
Definition build_request (method url : string) (data files : pyvalue)
  (params : option (gmap string pyvalue))
  (headers cookies : option (gmap string string)) : M Request :=
  fun self =>
    let request := mkRequest method url data files params headers cookies in
    match request_failure (_client self) request with
    | Some e => (Raise e, self)
    | None => (Return request, self)
    end.

(** [await self.middleware_manager.send(request, self._client._transport)] *)
Definition middleware_send (request : Request) : M Response :=
  fun self =>
    let '(r, mm) := manager_send (middleware_manager self) request in
    (r, {| _base_url := _base_url self;
           _client := _client self;
           token_store := token_store self;
           middleware_manager := mm |}).

Definition build_url (url : string) : M string :=
  fun self =>
    let url := if negb (String.prefix "/" url) then "/" +:+ url else url in
    (Return (_base_url self +:+ url), self).

Definition _get_token : M pyvalue :=
  fun self =>
    match token_store self with
    | Some store => (Return (get_token store (CLIENT_ID settings)), self)
    | None => (Raise (LookupError "No token_path store registered to this client"), self)
    end.

Definition send (method url : string) (data upload_file : pyvalue)
  (params : option (gmap string pyvalue))
  (headers cookies : option (gmap string string)) : M Response :=
  let data := if is_none data then PDict [] else data in
  let cookies := default ∅ cookies in
  let headers := default ∅ headers in
  let params := default ∅ params in
  let* token := _get_token in
  let headers :=
    if truthy token
    then {[ "Authorization" := "Bearer " +:+ py_str token ]}
    else headers in
  let* target := build_url url in
  let* request :=
    build_request method target data upload_file
      (Some params) (Some headers) (Some cookies) in
  let* resp := middleware_send request in
  if status_code resp >=? 300 then
    let* error :=
      try_except
        (let* body := resp_json resp in
         subscript body "detail")
        (fun e => match e with
                  | KeyError _ | AttributeError => true
                  | _ => false
                  end)
        (ret (PStr (text resp))) in
    raise (RequestException (status_code resp)
             ("Request was unsuccessful: " +:+ py_str error))
  else ret resp.

Definition get (url : string) (params : option (gmap string pyvalue))
  (headers cookies : option (gmap string string)) : M Response :=
  send "GET" url PNone PNone params headers cookies.

Definition post (url : string) (data upload_file : pyvalue)
  (params : option (gmap string pyvalue))
  (headers cookies : option (gmap string string)) : M Response :=
  if negb (truthy upload_file) && negb (truthy data) then
    raise (RequestException 400
             "Post requests must either send an upload_file or data.")
  else send "POST" url data upload_file params headers cookies.

Definition put (url : string) (data upload_file : pyvalue)
  (params : option (gmap string pyvalue))
  (headers cookies : option (gmap string string)) : M Response :=
  send "PUT" url data upload_file params headers cookies.

Definition patch (url : string) (data upload_file : pyvalue)
  (params : option (gmap string pyvalue))
  (headers cookies : option (gmap string string)) : M Response :=
  send "PATCH" url data upload_file params headers cookies.

Definition delete (url : string) (params : option (gmap string pyvalue))
  (headers cookies : option (gmap string string)) : M Response :=
  send "DELETE" url PNone PNone params headers cookies.

(** [self.token_store.set_token(...)]: the store object is updated in place. *)
Definition store_set_token (store : Store) (identifier : string)
  (token expires : pyvalue) : M unit :=
  fun self =>
    (Return tt, {| _base_url := _base_url self;
                   _client := _client self;
                   token_store := Some (set_token identifier token expires store);
                   middleware_manager := middleware_manager self |}).

Definition authorise (token_url : string)
  (headers : option (gmap string string)) : M unit :=
  let headers := default ∅ headers in
  let* request :=
    build_request "POST" token_url
      (PDict [("grant_type", PStr "client_credentials");
              ("client_id", PStr (CLIENT_ID settings));
              ("client_secret", PStr (CLIENT_SECRET settings))])
      PNone None (Some headers) None in
  let* resp := middleware_send request in
  if negb (status_code resp =? 200) then
    raise (RequestException (status_code resp)
             ("Authorization failed: " +:+ text resp))
  else
    fun self =>
      match token_store self with
      | None =>
          (Raise (LookupError "No token_path store registered to this client"), self)
      | Some store =>
          (let* body := resp_json resp in
           let* token := subscript body "access_token" in
           let* body' := resp_json resp in
           let* expires := subscript body' "expires_at" in
           store_set_token store (CLIENT_ID settings) token expires) self
      end.

(** ** The generated endpoint methods that take [query_arguments] *)

(** What a generated method returns: a validated model, or the [str()] of
    the response body. *)
Inductive parsed : Type :=
| Validated (m : Model)
| Rendered (s : string).

(** [dataclasses.asdict]: a query dataclass is represented by the dict of
    its fields, so the conversion keeps every field with its value. *)
Definition asdict (query_arguments : gmap string pyvalue) : gmap string pyvalue :=
  query_arguments.

(** [{k: v for k, v in d.items() if v is not None}] *)
Definition drop_none (d : gmap string pyvalue) : gmap string pyvalue :=
  filter (fun kv => is_none kv.2 = false) d.

(** [a | b]: the union of two dicts in which the entries of [b] win. *)
Definition dict_or (a b : gmap string pyvalue) : gmap string pyvalue := b ∪ a.

(** [try: cls.model_validate(resp.json()) except ValidationError: raise
    EnsureException(...)] *)
Definition validated (cls : string) (resp : Response) : M parsed :=
  try_except
    (let* body := resp_json resp in
     match model_validate cls body with
     | Some m => ret (Validated m)
     | None => raise ValidationError
     end)
    (fun e => match e with ValidationError => true | _ => false end)
    (raise (EnsureException
              ("The response came back in an unexpected format: " +:+ text resp))).

(** [str(resp.json())] *)
Definition rendered (resp : Response) : M parsed :=
  let* body := resp_json resp in
  ret (Rendered (py_str body)).

Definition admin_list_vcs (query_arguments : gmap string pyvalue)
  (domain_name : string)
  : M parsed :=
  let query_params := drop_none (asdict query_arguments) in
  let path_params : gmap string pyvalue := {[ "domain_name" := PStr domain_name ]} in
  let* resp :=
    get ("/admin/domains/" +:+ domain_name +:+ "/vcs/")
      (Some (dict_or path_params query_params)) None None in
  validated "PageVerifiableCredential" resp.

Definition admin_list_vps (query_arguments : gmap string pyvalue)
  (domain_name : string)
  : M parsed :=
  let query_params := drop_none (asdict query_arguments) in
  let path_params : gmap string pyvalue := {[ "domain_name" := PStr domain_name ]} in
  let* resp :=
    get ("/admin/domains/" +:+ domain_name +:+ "/vps/")
      (Some (dict_or path_params query_params)) None None in
  validated "PageVerifiablePresentation" resp.

Definition admin_list_tasks (query_arguments : gmap string pyvalue)
  (domain_name : string)
  : M parsed :=
  let query_params := drop_none (asdict query_arguments) in
  let path_params : gmap string pyvalue := {[ "domain_name" := PStr domain_name ]} in
  let* resp :=
    get ("/admin/domains/" +:+ domain_name +:+ "/tasks/")
      (Some (dict_or path_params query_params)) None None in
  validated "PageTask" resp.

Definition list_did_strings (query_arguments : gmap string pyvalue)
  : M parsed :=
  let query_params := drop_none (asdict query_arguments) in
  let path_params : gmap string pyvalue := ∅ in
  let* resp :=
    get ("/dids/")
      (Some (dict_or path_params query_params)) None None in
  rendered resp.

Definition get_did_document (query_arguments : gmap string pyvalue)
  (did_id : string)
  : M parsed :=
  let query_params := drop_none (asdict query_arguments) in
  let path_params : gmap string pyvalue := {[ "did_id" := PStr did_id ]} in
  let* resp :=
    get ("/dids/" +:+ did_id)
      (Some (dict_or path_params query_params)) None None in
  validated "DIDDocument" resp.

Definition list_custodial_accounts (query_arguments : gmap string pyvalue)
  : M parsed :=
  let query_params := drop_none (asdict query_arguments) in
  let path_params : gmap string pyvalue := ∅ in
  let* resp :=
    get ("/users/accounts/")
      (Some (dict_or path_params query_params)) None None in
  validated "ListAccounts" resp.

Definition list_trust_profiles (query_arguments : gmap string pyvalue)
  (domain_name : string)
  : M parsed :=
  let query_params := drop_none (asdict query_arguments) in
  let path_params : gmap string pyvalue := {[ "domain_name" := PStr domain_name ]} in
  let* resp :=
    get ("/domains/" +:+ domain_name +:+ "/trustprofiles/")
      (Some (dict_or path_params query_params)) None None in
  validated "PageTrustProfile" resp.

Definition list_dids (query_arguments : gmap string pyvalue)
  (domain_name : string)
  : M parsed :=
  let query_params := drop_none (asdict query_arguments) in
  let path_params : gmap string pyvalue := {[ "domain_name" := PStr domain_name ]} in
  let* resp :=
    get ("/domains/" +:+ domain_name +:+ "/dids/")
      (Some (dict_or path_params query_params)) None None in
  validated "PageDIDResponseModel" resp.

Definition list_vcs (query_arguments : gmap string pyvalue)
  (domain_name : string)
  : M parsed :=
  let query_params := drop_none (asdict query_arguments) in
  let path_params : gmap string pyvalue := {[ "domain_name" := PStr domain_name ]} in
  let* resp :=
    get ("/domains/" +:+ domain_name +:+ "/vcs/")
      (Some (dict_or path_params query_params)) None None in
  validated "PageVerifiableCredential" resp.

Definition accept_vc (query_arguments : gmap string pyvalue)
  (vc_id : string) (domain_name : string)
  : M parsed :=
  let query_params := drop_none (asdict query_arguments) in
  let path_params : gmap string pyvalue :=
    <[ "domain_name" := PStr domain_name ]> {[ "vc_id" := PStr vc_id ]} in
  let* resp :=
    put ("/domains/" +:+ domain_name +:+ "/vcs/" +:+ vc_id +:+ "/accept/") PNone PNone
      (Some (dict_or path_params query_params)) None None in
  rendered resp.

Definition get_vps (query_arguments : gmap string pyvalue)
  (domain_name : string)
  : M parsed :=
  let query_params := drop_none (asdict query_arguments) in
  let path_params : gmap string pyvalue := {[ "domain_name" := PStr domain_name ]} in
  let* resp :=
    get ("/domains/" +:+ domain_name +:+ "/vps/")
      (Some (dict_or path_params query_params)) None None in
  validated "PageVerifiablePresentation" resp.

Definition list_tasks (query_arguments : gmap string pyvalue)
  (domain_name : string)
  : M parsed :=
  let query_params := drop_none (asdict query_arguments) in
  let path_params : gmap string pyvalue := {[ "domain_name" := PStr domain_name ]} in
  let* resp :=
    get ("/domains/" +:+ domain_name +:+ "/tasks/")
      (Some (dict_or path_params query_params)) None None in
  validated "PageTask" resp.



End Dispatch.

Arguments Client Store : clear implicits.
Arguments M Store A : clear implicits.

Notation "'let*' x := m 'in' k" := (bind m (fun x => k))
  (at level 10, x name, m at level 100, k at level 200).

(** ** Leading separators of a path *)

(** The number of ["/"] characters a path starts with. *)
Fixpoint leading_separators (path : string) : nat :=
  match path with
  | String "/"%char rest => S (leading_separators rest)
  | _ => 0%nat
  end.

(** The path without the separators it starts with. *)
Fixpoint strip_leading (path : string) : string :=
  match path with
  | String "/"%char rest => strip_leading rest
  | _ => path
  end.

(** The normal form the specification describes for [build_url]: the path
    made to start with exactly one separator, however many it had. *)
Definition single_leading_separator (path : string) : string :=
  "/" +:+ strip_leading path.

(** ** Concrete clients, used to run the model *)

Definition demo_settings : Settings :=
  mkSettings "client-1" "s3cret" "https://auth.example.com/token".

(** A stand-in rendering of non-string values. *)
Definition demo_repr (v : pyvalue) : string := "<value>".

(** A manager that answers every request with [resp] after one transport
    call and that has not been used yet. *)
Definition answering (resp : Response) : MiddlewareManager :=
  {| mm_behaviour := fun _ => (Return resp, 1%nat);
     mm_handed := [];
     mm_transport_calls := 0 |}.

(** An httpx client that builds every request, and one that rejects the
    URLs holding a tab character as [httpx.InvalidURL]. *)
Definition accepting : HttpxClient := mkHttpxClient (fun _ => None).

Definition tab : string := String (Ascii.ascii_of_nat 9) "".

Fixpoint has_tab (s : string) : bool :=
  match s with
  | EmptyString => false
  | String c rest => Ascii.eqb c (Ascii.ascii_of_nat 9) || has_tab rest
  end.

Definition strict : HttpxClient :=
  mkHttpxClient (fun request =>
    if has_tab (url request)
    then Some (InvalidURL "Invalid non-printable ASCII character in URL")
    else None).

Definition demo_client (store : option MemoryTokenStore) (resp : Response)
  : Client MemoryTokenStore :=
  mkClient "https://api.example.com" accepting store (answering resp).

Definition store_with (token : pyvalue) : MemoryTokenStore :=
  memory_set_token (CLIENT_ID demo_settings) token (PInt 1700000000) ∅.

Definition ok_response : Response :=
  mkResponse 200 "{}" (Some (PDict [])) JSONDecodeError.

(** The double quote character, for writing JSON texts. *)
Definition dq : string := String (Ascii.ascii_of_nat 34) "".

Definition not_found_response : Response :=
  mkResponse 404
    ("{" +:+ dq +:+ "detail" +:+ dq +:+ ": " +:+ dq +:+ "Not found" +:+ dq +:+ "}")
    (Some (PDict [("detail", PStr "Not found")])) JSONDecodeError.

(** A gateway error whose body is plain text, not JSON. *)
Definition gateway_error_response : Response :=
  mkResponse 502 "Bad Gateway" None JSONDecodeError.

(** The token endpoint's success answer. *)
Definition token_response : Response :=
  mkResponse 200
    ("{" +:+ dq +:+ "access_token" +:+ dq +:+ ": " +:+ dq +:+ "tok123" +:+ dq +:+ ", "
         +:+ dq +:+ "expires_at" +:+ dq +:+ ": 1700000000}")
    (Some (PDict [("access_token", PStr "tok123"); ("expires_at", PInt 1700000000)]))
    JSONDecodeError.

Definition unauthorized_response : Response :=
  mkResponse 401 "invalid client" None JSONDecodeError.

(** A validator that accepts every body. *)
Definition demo_validate (cls : string) (body : pyvalue) : option unit := Some tt.

(** Query arguments with one field set and one left at [None]. *)
Definition demo_query : gmap string pyvalue :=
  <[ "page" := PInt 2 ]> {[ "alias__ilike" := PNone ]}.

(** [send] and [authorise] with the concrete settings. *)
Definition demo_get (self : Client MemoryTokenStore)
  (caller_headers : option (gmap string string))
  : outcome Response * Client MemoryTokenStore :=
  send demo_settings demo_repr "GET" "/dids/" PNone PNone None caller_headers None self.

Definition demo_authorise (self : Client MemoryTokenStore)
  : outcome unit * Client MemoryTokenStore :=
  authorise demo_settings (TOKEN_URL demo_settings) None self.


(** ** The generated endpoint methods without [query_arguments] *)

Section Endpoints.

Context {Store : Type} `{TokenStore Store}.
Variable settings : Settings.
Variable py_repr : pyvalue -> string.
Variable Model : Type.
Variable model_validate : string -> pyvalue -> option Model.

(** The body argument of a generated write method: an instance of a
    pydantic [BaseModel] subclass, given by what its [model_dump_json()]
    returns, or any other object. *)
Inductive payload : Type :=
| BaseModelObject (model_dump_json : string)
| OtherObject (v : pyvalue).

(** [str(x) if not issubclass(type(x), BaseModel) else x.model_dump_json()] *)
Definition serialize (x : payload) : pyvalue :=
  match x with
  | OtherObject v => PStr (py_str py_repr v)
  | BaseModelObject dumped => PStr dumped
  end.

Definition whoamai
  : M Store (parsed Model) :=
  let path_params : gmap string pyvalue :=
    ∅ in
  let* resp :=
    get settings py_repr ("/admin/whoami/")
      (Some path_params) None None in
  validated Model model_validate "User" resp.

Definition create_custodial_account (createaccounthttp : payload)
  : M Store (parsed Model) :=
  let path_params : gmap string pyvalue :=
    ∅ in
  let* resp :=
    post settings py_repr ("/users/accounts/")
      (serialize createaccounthttp) PNone (Some path_params) None None in
  validated Model model_validate "BlocksAccount" resp.

Definition create_trust_profile
  (domain_name : string) (createtrustprofileinput : payload)
  : M Store (parsed Model) :=
  let path_params : gmap string pyvalue :=
    {[ "domain_name" := PStr domain_name ]} in
  let* resp :=
    post settings py_repr ("/domains/" +:+ domain_name +:+ "/trustprofiles/")
      (serialize createtrustprofileinput) PNone (Some path_params) None None in
  rendered py_repr Model resp.

Definition get_trust_profile
  (trustprofile : string) (domain_name : string)
  : M Store (parsed Model) :=
  let path_params : gmap string pyvalue :=
    <[ "domain_name" := PStr domain_name ]> {[ "trustprofile" := PStr trustprofile ]} in
  let* resp :=
    get settings py_repr ("/domains/" +:+ domain_name +:+ "/trustprofiles/" +:+ trustprofile)
      (Some path_params) None None in
  validated Model model_validate "TrustProfile" resp.

Definition update_trust_profile
  (trustprofile : string) (domain_name : string) (updatetrustprofileinput : payload)
  : M Store (parsed Model) :=
  let path_params : gmap string pyvalue :=
    <[ "domain_name" := PStr domain_name ]> {[ "trustprofile" := PStr trustprofile ]} in
  let* resp :=
    put settings py_repr ("/domains/" +:+ domain_name +:+ "/trustprofiles/" +:+ trustprofile)
      (serialize updatetrustprofileinput) PNone (Some path_params) None None in
  rendered py_repr Model resp.

Definition get_schema_registry (domain_name : string)
  : M Store (parsed Model) :=
  let path_params : gmap string pyvalue :=
    {[ "domain_name" := PStr domain_name ]} in
  let* resp :=
    get settings py_repr ("/domains/" +:+ domain_name +:+ "/schemas/")
      (Some path_params) None None in
  validated Model model_validate "DomainRegistry" resp.

Definition create_schema
  (domain_name : string) (createschemahttp : payload)
  : M Store (parsed Model) :=
  let path_params : gmap string pyvalue :=
    {[ "domain_name" := PStr domain_name ]} in
  let* resp :=
    post settings py_repr ("/domains/" +:+ domain_name +:+ "/schemas/")
      (serialize createschemahttp) PNone (Some path_params) None None in
  validated Model model_validate "Task" resp.

Definition delete_schema (schema_name : string) (domain_name : string)
  : M Store (parsed Model) :=
  let path_params : gmap string pyvalue :=
    <[ "domain_name" := PStr domain_name ]> {[ "schema_name" := PStr schema_name ]} in
  let* resp :=
    delete settings py_repr ("/domains/" +:+ domain_name +:+ "/schemas/" +:+ schema_name)
      (Some path_params) None None in
  validated Model model_validate "Task" resp.

Definition create_did (domain_name : string) (createdidhttp : payload)
  : M Store (parsed Model) :=
  let path_params : gmap string pyvalue :=
    {[ "domain_name" := PStr domain_name ]} in
  let* resp :=
    post settings py_repr ("/domains/" +:+ domain_name +:+ "/dids/")
      (serialize createdidhttp) PNone (Some path_params) None None in
  rendered py_repr Model resp.

Definition get_did (did_id : string) (domain_name : string)
  : M Store (parsed Model) :=
  let path_params : gmap string pyvalue :=
    <[ "domain_name" := PStr domain_name ]> {[ "did_id" := PStr did_id ]} in
  let* resp :=
    get settings py_repr ("/domains/" +:+ domain_name +:+ "/dids/" +:+ did_id)
      (Some path_params) None None in
  validated Model model_validate "DID" resp.

Definition update_did
  (did_id : string) (domain_name : string) (updatedidhttp : payload)
  : M Store (parsed Model) :=
  let path_params : gmap string pyvalue :=
    <[ "domain_name" := PStr domain_name ]> {[ "did_id" := PStr did_id ]} in
  let* resp :=
    put settings py_repr ("/domains/" +:+ domain_name +:+ "/dids/" +:+ did_id)
      (serialize updatedidhttp) PNone (Some path_params) None None in
  rendered py_repr Model resp.

Definition revoke_did (did_id : string) (domain_name : string)
  : M Store (parsed Model) :=
  let path_params : gmap string pyvalue :=
    <[ "domain_name" := PStr domain_name ]> {[ "did_id" := PStr did_id ]} in
  let* resp :=
    delete settings py_repr ("/domains/" +:+ domain_name +:+ "/dids/" +:+ did_id)
      (Some path_params) None None in
  rendered py_repr Model resp.

Definition submit_signed_did_transaction
  (did_id : string) (domain_name : string) (didsignedtxn : payload)
  : M Store (parsed Model) :=
  let path_params : gmap string pyvalue :=
    <[ "domain_name" := PStr domain_name ]> {[ "did_id" := PStr did_id ]} in
  let* resp :=
    put settings py_repr ("/domains/" +:+ domain_name +:+ "/dids/" +:+ did_id +:+ "/pending-txn/submit-signed/")
      (serialize didsignedtxn) PNone (Some path_params) None None in
  rendered py_repr Model resp.

Definition get_pending_did_txn
  (did_id : string) (domain_name : string)
  : M Store (parsed Model) :=
  let path_params : gmap string pyvalue :=
    <[ "domain_name" := PStr domain_name ]> {[ "did_id" := PStr did_id ]} in
  let* resp :=
    get settings py_repr ("/domains/" +:+ domain_name +:+ "/dids/" +:+ did_id +:+ "/pending-txn/")
      (Some path_params) None None in
  validated Model model_validate "PendingTxn" resp.

Definition delete_pending_did_txn
  (did_id : string) (domain_name : string)
  : M Store (parsed Model) :=
  let path_params : gmap string pyvalue :=
    <[ "domain_name" := PStr domain_name ]> {[ "did_id" := PStr did_id ]} in
  let* resp :=
    delete settings py_repr ("/domains/" +:+ domain_name +:+ "/dids/" +:+ did_id +:+ "/pending-txn/")
      (Some path_params) None None in
  rendered py_repr Model resp.

Definition create_vc (domain_name : string) (createvchttp : payload)
  : M Store (parsed Model) :=
  let path_params : gmap string pyvalue :=
    {[ "domain_name" := PStr domain_name ]} in
  let* resp :=
    post settings py_repr ("/domains/" +:+ domain_name +:+ "/vcs/")
      (serialize createvchttp) PNone (Some path_params) None None in
  rendered py_repr Model resp.

Definition get_vc (vc_id : string) (domain_name : string)
  : M Store (parsed Model) :=
  let path_params : gmap string pyvalue :=
    <[ "domain_name" := PStr domain_name ]> {[ "vc_id" := PStr vc_id ]} in
  let* resp :=
    get settings py_repr ("/domains/" +:+ domain_name +:+ "/vcs/" +:+ vc_id)
      (Some path_params) None None in
  validated Model model_validate "CredentialServiceDomainModelsVerifiableCredential" resp.

Definition revoke_vc (vc_id : string) (domain_name : string)
  : M Store (parsed Model) :=
  let path_params : gmap string pyvalue :=
    <[ "domain_name" := PStr domain_name ]> {[ "vc_id" := PStr vc_id ]} in
  let* resp :=
    delete settings py_repr ("/domains/" +:+ domain_name +:+ "/vcs/" +:+ vc_id)
      (Some path_params) None None in
  rendered py_repr Model resp.

Definition submit_signed_vc_revocation
  (vc_id : string) (domain_name : string) (didsignedtxn : payload)
  : M Store (parsed Model) :=
  let path_params : gmap string pyvalue :=
    <[ "domain_name" := PStr domain_name ]> {[ "vc_id" := PStr vc_id ]} in
  let* resp :=
    put settings py_repr ("/domains/" +:+ domain_name +:+ "/vcs/revoked-vcs/" +:+ vc_id +:+ "/submit-signed/")
      (serialize didsignedtxn) PNone (Some path_params) None None in
  rendered py_repr Model resp.

Definition submit_signed_vc
  (vc_id : string) (domain_name : string) (submitsignedcredentialhttp : payload)
  : M Store (parsed Model) :=
  let path_params : gmap string pyvalue :=
    <[ "domain_name" := PStr domain_name ]> {[ "vc_id" := PStr vc_id ]} in
  let* resp :=
    put settings py_repr ("/domains/" +:+ domain_name +:+ "/vcs/signed-vcs/" +:+ vc_id +:+ "/submit-signed/")
      (serialize submitsignedcredentialhttp) PNone (Some path_params) None None in
  rendered py_repr Model resp.

Definition get_pending_vc_txn (vc_id : string) (domain_name : string)
  : M Store (parsed Model) :=
  let path_params : gmap string pyvalue :=
    <[ "domain_name" := PStr domain_name ]> {[ "vc_id" := PStr vc_id ]} in
  let* resp :=
    get settings py_repr ("/domains/" +:+ domain_name +:+ "/vcs/" +:+ vc_id +:+ "/pending-txn/")
      (Some path_params) None None in
  validated Model model_validate "PendingTxn" resp.

Definition delete_pending_vc_txn
  (vc_id : string) (domain_name : string)
  : M Store (parsed Model) :=
  let path_params : gmap string pyvalue :=
    <[ "domain_name" := PStr domain_name ]> {[ "vc_id" := PStr vc_id ]} in
  let* resp :=
    delete settings py_repr ("/domains/" +:+ domain_name +:+ "/vcs/" +:+ vc_id +:+ "/pending-txn/")
      (Some path_params) None None in
  validated Model model_validate "PendingTxn" resp.

Definition get_vc_digest (vc_id : string) (domain_name : string)
  : M Store (parsed Model) :=
  let path_params : gmap string pyvalue :=
    <[ "domain_name" := PStr domain_name ]> {[ "vc_id" := PStr vc_id ]} in
  let* resp :=
    get settings py_repr ("/domains/" +:+ domain_name +:+ "/vcs/" +:+ vc_id +:+ "/digest/")
      (Some path_params) None None in
  validated Model model_validate "ProofDigest" resp.

Definition create_vp (domain_name : string) (createvphttp : payload)
  : M Store (parsed Model) :=
  let path_params : gmap string pyvalue :=
    {[ "domain_name" := PStr domain_name ]} in
  let* resp :=
    post settings py_repr ("/domains/" +:+ domain_name +:+ "/vps/")
      (serialize createvphttp) PNone (Some path_params) None None in
  rendered py_repr Model resp.

Definition get_vp (vp_id : string) (domain_name : string)
  : M Store (parsed Model) :=
  let path_params : gmap string pyvalue :=
    <[ "domain_name" := PStr domain_name ]> {[ "vp_id" := PStr vp_id ]} in
  let* resp :=
    get settings py_repr ("/domains/" +:+ domain_name +:+ "/vps/" +:+ vp_id)
      (Some path_params) None None in
  validated Model model_validate "CredentialServiceDomainModelsVerifiablePresentation" resp.

Definition submit_signed_vp
  (vp_id : string) (domain_name : string) (submitsignedcredentialhttp : payload)
  : M Store (parsed Model) :=
  let path_params : gmap string pyvalue :=
    <[ "domain_name" := PStr domain_name ]> {[ "vp_id" := PStr vp_id ]} in
  let* resp :=
    put settings py_repr ("/domains/" +:+ domain_name +:+ "/vps/signed-vps/" +:+ vp_id +:+ "/submit-signed/")
      (serialize submitsignedcredentialhttp) PNone (Some path_params) None None in
  rendered py_repr Model resp.

Definition get_vp_digest (vp_id : string) (domain_name : string)
  : M Store (parsed Model) :=
  let path_params : gmap string pyvalue :=
    <[ "domain_name" := PStr domain_name ]> {[ "vp_id" := PStr vp_id ]} in
  let* resp :=
    get settings py_repr ("/domains/" +:+ domain_name +:+ "/vps/" +:+ vp_id +:+ "/digest/")
      (Some path_params) None None in
  validated Model model_validate "ProofDigest" resp.

Definition get_task (task_id : string) (domain_name : string)
  : M Store (parsed Model) :=
  let path_params : gmap string pyvalue :=
    <[ "domain_name" := PStr domain_name ]> {[ "task_id" := PStr task_id ]} in
  let* resp :=
    get settings py_repr ("/domains/" +:+ domain_name +:+ "/tasks/" +:+ task_id)
      (Some path_params) None None in
  validated Model model_validate "Task" resp.

Definition verify_vc (body : payload)
  : M Store (parsed Model) :=
  let path_params : gmap string pyvalue :=
    ∅ in
  let* resp :=
    post settings py_repr ("/verify/vc/")
      (serialize body) PNone (Some path_params) None None in
  validated Model model_validate "VerificationResult" resp.

Definition verify_vp (body : payload)
  : M Store (parsed Model) :=
  let path_params : gmap string pyvalue :=
    ∅ in
  let* resp :=
    post settings py_repr ("/verify/vp/")
      (serialize body) PNone (Some path_params) None None in
  validated Model model_validate "VerificationResult" resp.

(** One row per generated method: the verb method it calls, the path, the
    [data] and [params] it passes, the model class it validates the answer
    with ([None] when it returns [str(resp.json())]), and the method
    itself applied to its arguments. *)
Record endpoint : Type := mkEndpoint {
  ep_verb : string;
  ep_path : string;
  ep_data : pyvalue;
  ep_params : gmap string pyvalue;
  ep_model : option string;
  ep_call : M Store (parsed Model)
}.

(** The template all generated methods are instances of. *)
Definition dispatch (ep : endpoint) : M Store (parsed Model) :=
  let* resp :=
    (if String.eqb (ep_verb ep) "POST"
     then post settings py_repr (ep_path ep) (ep_data ep) PNone
            (Some (ep_params ep)) None None
     else send settings py_repr (ep_verb ep) (ep_path ep) (ep_data ep) PNone
            (Some (ep_params ep)) None None) in
  match ep_model ep with
  | Some cls => validated Model model_validate cls resp
  | None => rendered py_repr Model resp
  end.

(** All 42 generated methods of [CredentialClient], in source order within
    each group: first those with [query_arguments], then the others. *)
Definition generated_endpoints (query_arguments : gmap string pyvalue)
  (domain_name did_id vc_id vp_id task_id trustprofile schema_name : string)
  (body : payload) : list endpoint :=
  [
    {| ep_verb := "GET";
       ep_path := "/admin/domains/" +:+ domain_name +:+ "/vcs/";
       ep_data := PNone;
       ep_params := dict_or ({[ "domain_name" := PStr domain_name ]}) (drop_none (asdict query_arguments));
       ep_model := Some "PageVerifiableCredential";
       ep_call := admin_list_vcs settings py_repr Model model_validate query_arguments domain_name |};
    {| ep_verb := "GET";
       ep_path := "/admin/domains/" +:+ domain_name +:+ "/vps/";
       ep_data := PNone;
       ep_params := dict_or ({[ "domain_name" := PStr domain_name ]}) (drop_none (asdict query_arguments));
       ep_model := Some "PageVerifiablePresentation";
       ep_call := admin_list_vps settings py_repr Model model_validate query_arguments domain_name |};
    {| ep_verb := "GET";
       ep_path := "/admin/domains/" +:+ domain_name +:+ "/tasks/";
       ep_data := PNone;
       ep_params := dict_or ({[ "domain_name" := PStr domain_name ]}) (drop_none (asdict query_arguments));
       ep_model := Some "PageTask";
       ep_call := admin_list_tasks settings py_repr Model model_validate query_arguments domain_name |};
    {| ep_verb := "GET";
       ep_path := "/dids/";
       ep_data := PNone;
       ep_params := dict_or (∅) (drop_none (asdict query_arguments));
       ep_model := None;
       ep_call := list_did_strings settings py_repr Model query_arguments |};
    {| ep_verb := "GET";
       ep_path := "/dids/" +:+ did_id;
       ep_data := PNone;
       ep_params := dict_or ({[ "did_id" := PStr did_id ]}) (drop_none (asdict query_arguments));
       ep_model := Some "DIDDocument";
       ep_call := get_did_document settings py_repr Model model_validate query_arguments did_id |};
    {| ep_verb := "GET";
       ep_path := "/users/accounts/";
       ep_data := PNone;
       ep_params := dict_or (∅) (drop_none (asdict query_arguments));
       ep_model := Some "ListAccounts";
       ep_call := list_custodial_accounts settings py_repr Model model_validate query_arguments |};
    {| ep_verb := "GET";
       ep_path := "/domains/" +:+ domain_name +:+ "/trustprofiles/";
       ep_data := PNone;
       ep_params := dict_or ({[ "domain_name" := PStr domain_name ]}) (drop_none (asdict query_arguments));
       ep_model := Some "PageTrustProfile";
       ep_call := list_trust_profiles settings py_repr Model model_validate query_arguments domain_name |};
    {| ep_verb := "GET";
       ep_path := "/domains/" +:+ domain_name +:+ "/dids/";
       ep_data := PNone;
       ep_params := dict_or ({[ "domain_name" := PStr domain_name ]}) (drop_none (asdict query_arguments));
       ep_model := Some "PageDIDResponseModel";
       ep_call := list_dids settings py_repr Model model_validate query_arguments domain_name |};
    {| ep_verb := "GET";
       ep_path := "/domains/" +:+ domain_name +:+ "/vcs/";
       ep_data := PNone;
       ep_params := dict_or ({[ "domain_name" := PStr domain_name ]}) (drop_none (asdict query_arguments));
       ep_model := Some "PageVerifiableCredential";
       ep_call := list_vcs settings py_repr Model model_validate query_arguments domain_name |};
    {| ep_verb := "PUT";
       ep_path := "/domains/" +:+ domain_name +:+ "/vcs/" +:+ vc_id +:+ "/accept/";
       ep_data := PNone;
       ep_params := dict_or (<[ "domain_name" := PStr domain_name ]> {[ "vc_id" := PStr vc_id ]}) (drop_none (asdict query_arguments));
       ep_model := None;
       ep_call := accept_vc settings py_repr Model query_arguments vc_id domain_name |};
    {| ep_verb := "GET";
       ep_path := "/domains/" +:+ domain_name +:+ "/vps/";
       ep_data := PNone;
       ep_params := dict_or ({[ "domain_name" := PStr domain_name ]}) (drop_none (asdict query_arguments));
       ep_model := Some "PageVerifiablePresentation";
       ep_call := get_vps settings py_repr Model model_validate query_arguments domain_name |};
    {| ep_verb := "GET";
       ep_path := "/domains/" +:+ domain_name +:+ "/tasks/";
       ep_data := PNone;
       ep_params := dict_or ({[ "domain_name" := PStr domain_name ]}) (drop_none (asdict query_arguments));
       ep_model := Some "PageTask";
       ep_call := list_tasks settings py_repr Model model_validate query_arguments domain_name |};
    {| ep_verb := "GET";
       ep_path := "/admin/whoami/";
       ep_data := PNone;
       ep_params := ∅;
       ep_model := Some "User";
       ep_call := whoamai |};
    {| ep_verb := "POST";
       ep_path := "/users/accounts/";
       ep_data := serialize body;
       ep_params := ∅;
       ep_model := Some "BlocksAccount";
       ep_call := create_custodial_account body |};
    {| ep_verb := "POST";
       ep_path := "/domains/" +:+ domain_name +:+ "/trustprofiles/";
       ep_data := serialize body;
       ep_params := {[ "domain_name" := PStr domain_name ]};
       ep_model := None;
       ep_call := create_trust_profile domain_name body |};
    {| ep_verb := "GET";
       ep_path := "/domains/" +:+ domain_name +:+ "/trustprofiles/" +:+ trustprofile;
       ep_data := PNone;
       ep_params := <[ "domain_name" := PStr domain_name ]> {[ "trustprofile" := PStr trustprofile ]};
       ep_model := Some "TrustProfile";
       ep_call := get_trust_profile trustprofile domain_name |};
    {| ep_verb := "PUT";
       ep_path := "/domains/" +:+ domain_name +:+ "/trustprofiles/" +:+ trustprofile;
       ep_data := serialize body;
       ep_params := <[ "domain_name" := PStr domain_name ]> {[ "trustprofile" := PStr trustprofile ]};
       ep_model := None;
       ep_call := update_trust_profile trustprofile domain_name body |};
    {| ep_verb := "GET";
       ep_path := "/domains/" +:+ domain_name +:+ "/schemas/";
       ep_data := PNone;
       ep_params := {[ "domain_name" := PStr domain_name ]};
       ep_model := Some "DomainRegistry";
       ep_call := get_schema_registry domain_name |};
    {| ep_verb := "POST";
       ep_path := "/domains/" +:+ domain_name +:+ "/schemas/";
       ep_data := serialize body;
       ep_params := {[ "domain_name" := PStr domain_name ]};
       ep_model := Some "Task";
       ep_call := create_schema domain_name body |};
    {| ep_verb := "DELETE";
       ep_path := "/domains/" +:+ domain_name +:+ "/schemas/" +:+ schema_name;
       ep_data := PNone;
       ep_params := <[ "domain_name" := PStr domain_name ]> {[ "schema_name" := PStr schema_name ]};
       ep_model := Some "Task";
       ep_call := delete_schema schema_name domain_name |};
    {| ep_verb := "POST";
       ep_path := "/domains/" +:+ domain_name +:+ "/dids/";
       ep_data := serialize body;
       ep_params := {[ "domain_name" := PStr domain_name ]};
       ep_model := None;
       ep_call := create_did domain_name body |};
    {| ep_verb := "GET";
       ep_path := "/domains/" +:+ domain_name +:+ "/dids/" +:+ did_id;
       ep_data := PNone;
       ep_params := <[ "domain_name" := PStr domain_name ]> {[ "did_id" := PStr did_id ]};
       ep_model := Some "DID";
       ep_call := get_did did_id domain_name |};
    {| ep_verb := "PUT";
       ep_path := "/domains/" +:+ domain_name +:+ "/dids/" +:+ did_id;
       ep_data := serialize body;
       ep_params := <[ "domain_name" := PStr domain_name ]> {[ "did_id" := PStr did_id ]};
       ep_model := None;
       ep_call := update_did did_id domain_name body |};
    {| ep_verb := "DELETE";
       ep_path := "/domains/" +:+ domain_name +:+ "/dids/" +:+ did_id;
       ep_data := PNone;
       ep_params := <[ "domain_name" := PStr domain_name ]> {[ "did_id" := PStr did_id ]};
       ep_model := None;
       ep_call := revoke_did did_id domain_name |};
    {| ep_verb := "PUT";
       ep_path := "/domains/" +:+ domain_name +:+ "/dids/" +:+ did_id +:+ "/pending-txn/submit-signed/";
       ep_data := serialize body;
       ep_params := <[ "domain_name" := PStr domain_name ]> {[ "did_id" := PStr did_id ]};
       ep_model := None;
       ep_call := submit_signed_did_transaction did_id domain_name body |};
    {| ep_verb := "GET";
       ep_path := "/domains/" +:+ domain_name +:+ "/dids/" +:+ did_id +:+ "/pending-txn/";
       ep_data := PNone;
       ep_params := <[ "domain_name" := PStr domain_name ]> {[ "did_id" := PStr did_id ]};
       ep_model := Some "PendingTxn";
       ep_call := get_pending_did_txn did_id domain_name |};
    {| ep_verb := "DELETE";
       ep_path := "/domains/" +:+ domain_name +:+ "/dids/" +:+ did_id +:+ "/pending-txn/";
       ep_data := PNone;
       ep_params := <[ "domain_name" := PStr domain_name ]> {[ "did_id" := PStr did_id ]};
       ep_model := None;
       ep_call := delete_pending_did_txn did_id domain_name |};
    {| ep_verb := "POST";
       ep_path := "/domains/" +:+ domain_name +:+ "/vcs/";
       ep_data := serialize body;
       ep_params := {[ "domain_name" := PStr domain_name ]};
       ep_model := None;
       ep_call := create_vc domain_name body |};
    {| ep_verb := "GET";
       ep_path := "/domains/" +:+ domain_name +:+ "/vcs/" +:+ vc_id;
       ep_data := PNone;
       ep_params := <[ "domain_name" := PStr domain_name ]> {[ "vc_id" := PStr vc_id ]};
       ep_model := Some "CredentialServiceDomainModelsVerifiableCredential";
       ep_call := get_vc vc_id domain_name |};
    {| ep_verb := "DELETE";
       ep_path := "/domains/" +:+ domain_name +:+ "/vcs/" +:+ vc_id;
       ep_data := PNone;
       ep_params := <[ "domain_name" := PStr domain_name ]> {[ "vc_id" := PStr vc_id ]};
       ep_model := None;
       ep_call := revoke_vc vc_id domain_name |};
    {| ep_verb := "PUT";
       ep_path := "/domains/" +:+ domain_name +:+ "/vcs/revoked-vcs/" +:+ vc_id +:+ "/submit-signed/";
       ep_data := serialize body;
       ep_params := <[ "domain_name" := PStr domain_name ]> {[ "vc_id" := PStr vc_id ]};
       ep_model := None;
       ep_call := submit_signed_vc_revocation vc_id domain_name body |};
    {| ep_verb := "PUT";
       ep_path := "/domains/" +:+ domain_name +:+ "/vcs/signed-vcs/" +:+ vc_id +:+ "/submit-signed/";
       ep_data := serialize body;
       ep_params := <[ "domain_name" := PStr domain_name ]> {[ "vc_id" := PStr vc_id ]};
       ep_model := None;
       ep_call := submit_signed_vc vc_id domain_name body |};
    {| ep_verb := "GET";
       ep_path := "/domains/" +:+ domain_name +:+ "/vcs/" +:+ vc_id +:+ "/pending-txn/";
       ep_data := PNone;
       ep_params := <[ "domain_name" := PStr domain_name ]> {[ "vc_id" := PStr vc_id ]};
       ep_model := Some "PendingTxn";
       ep_call := get_pending_vc_txn vc_id domain_name |};
    {| ep_verb := "DELETE";
       ep_path := "/domains/" +:+ domain_name +:+ "/vcs/" +:+ vc_id +:+ "/pending-txn/";
       ep_data := PNone;
       ep_params := <[ "domain_name" := PStr domain_name ]> {[ "vc_id" := PStr vc_id ]};
       ep_model := Some "PendingTxn";
       ep_call := delete_pending_vc_txn vc_id domain_name |};
    {| ep_verb := "GET";
       ep_path := "/domains/" +:+ domain_name +:+ "/vcs/" +:+ vc_id +:+ "/digest/";
       ep_data := PNone;
       ep_params := <[ "domain_name" := PStr domain_name ]> {[ "vc_id" := PStr vc_id ]};
       ep_model := Some "ProofDigest";
       ep_call := get_vc_digest vc_id domain_name |};
    {| ep_verb := "POST";
       ep_path := "/domains/" +:+ domain_name +:+ "/vps/";
       ep_data := serialize body;
       ep_params := {[ "domain_name" := PStr domain_name ]};
       ep_model := None;
       ep_call := create_vp domain_name body |};
    {| ep_verb := "GET";
       ep_path := "/domains/" +:+ domain_name +:+ "/vps/" +:+ vp_id;
       ep_data := PNone;
       ep_params := <[ "domain_name" := PStr domain_name ]> {[ "vp_id" := PStr vp_id ]};
       ep_model := Some "CredentialServiceDomainModelsVerifiablePresentation";
       ep_call := get_vp vp_id domain_name |};
    {| ep_verb := "PUT";
       ep_path := "/domains/" +:+ domain_name +:+ "/vps/signed-vps/" +:+ vp_id +:+ "/submit-signed/";
       ep_data := serialize body;
       ep_params := <[ "domain_name" := PStr domain_name ]> {[ "vp_id" := PStr vp_id ]};
       ep_model := None;
       ep_call := submit_signed_vp vp_id domain_name body |};
    {| ep_verb := "GET";
       ep_path := "/domains/" +:+ domain_name +:+ "/vps/" +:+ vp_id +:+ "/digest/";
       ep_data := PNone;
       ep_params := <[ "domain_name" := PStr domain_name ]> {[ "vp_id" := PStr vp_id ]};
       ep_model := Some "ProofDigest";
       ep_call := get_vp_digest vp_id domain_name |};
    {| ep_verb := "GET";
       ep_path := "/domains/" +:+ domain_name +:+ "/tasks/" +:+ task_id;
       ep_data := PNone;
       ep_params := <[ "domain_name" := PStr domain_name ]> {[ "task_id" := PStr task_id ]};
       ep_model := Some "Task";
       ep_call := get_task task_id domain_name |};
    {| ep_verb := "POST";
       ep_path := "/verify/vc/";
       ep_data := serialize body;
       ep_params := ∅;
       ep_model := Some "VerificationResult";
       ep_call := verify_vc body |};
    {| ep_verb := "POST";
       ep_path := "/verify/vp/";
       ep_data := serialize body;
       ep_params := ∅;
       ep_model := Some "VerificationResult";
       ep_call := verify_vp body |}
  ].

(** [CredentialClient.authorise]: the token URL defaults to the setting. *)
Definition credential_authorise (token_url : option string)
  (headers : option (gmap string string)) : M Store unit :=
  authorise settings (default (TOKEN_URL settings) token_url) headers.

(** Whether the method fails on its own arguments: it goes through [post]
    and the body it would send is empty. *)
Definition rejects_locally (ep : endpoint) : bool :=
  String.eqb (ep_verb ep) "POST" && negb (truthy (ep_data ep)).

End Endpoints.

Arguments BaseModelObject model_dump_json : clear implicits.
Arguments endpoint Store Model : clear implicits.
Arguments mkEndpoint {Store Model} _ _ _ _ _ _.
Arguments ep_verb {Store Model} _.
Arguments ep_path {Store Model} _.
Arguments ep_data {Store Model} _.
Arguments ep_params {Store Model} _.
Arguments ep_model {Store Model} _.
Arguments ep_call {Store Model} _.
Arguments rejects_locally {Store Model} ep.
Arguments Validated {Model} m.
Arguments Rendered {Model} s.

(** ** Construction: [Client.__init__] *)

Section Construction.

Context {Store : Type}.

(** The middleware classes held by the registry [config.MIDDLEWARE], the
    [httpx.AsyncClient] objects and their timeouts: none of them is looked
    into by the constructor. *)
Variable Middleware : Type.
Variable AsyncClient : Type.
Variable Timeout : Type.

(** Whether [pydantic_core.Url(base_url)] accepts the string (it raises a
    [ValidationError] otherwise). *)
Variable url_valid : string -> bool.

(** [httpx.AsyncClient(headers=headers, cookies=cookies, timeout=timeout)] *)
Variable new_client :
  gmap string string -> gmap string string -> option Timeout -> AsyncClient.

(** A middleware object after [middleware_instance.client = self._client]. *)
Record MiddlewareInstance : Type := mkInstance {
  mw_class : Middleware;
  mw_client : AsyncClient
}.

(** [config.MIDDLEWARE[ware]], the registry being given by its items in
    order. *)
Fixpoint registry_get (registry : list (string * Middleware)) (ware : string)
  : option Middleware :=
  match registry with
  | [] => None
  | (name, cls) :: rest =>
      if String.eqb name ware then Some cls else registry_get rest ware
  end.

(** The registration loop over [wares]; [added] holds the instances passed
    to [add_middleware] so far, in call order. *)
Fixpoint add_wares (registry : list (string * Middleware)) (client : AsyncClient)
  (wares : list string) (added : list MiddlewareInstance)
  : outcome (list MiddlewareInstance) :=
  match wares with
  | [] => Return added
  | ware :: rest =>
      match registry_get registry ware with
      | None => Raise (KeyError ware)
      | Some cls =>
          add_wares registry client rest (added ++ [mkInstance cls client])
      end
  end.

(** What the constructor leaves in the new object. *)
Record Constructed : Type := mkConstructed {
  c_base_url : string;
  c_client : AsyncClient;
  c_token_store : option Store;
  c_added : list MiddlewareInstance
}.

Definition __init__ (registry : list (string * Middleware)) (base_url : string)
  (headers cookies : gmap string string) (client : option AsyncClient)
  (timeout : option Timeout) (token_store : option Store)
  (middleware : option (list string)) : outcome Constructed :=
  if negb (url_valid base_url) then Raise ValidationError
  else
    let _client :=
      match client with
      | None => new_client headers cookies timeout
      | Some given => given
      end in
    let wares :=
      match middleware with
      | Some names => names
      | None => map fst registry
      end in
    match add_wares registry _client wares [] with
    | Return added => Return (mkConstructed base_url _client token_store added)
    | Raise e => Raise e
    end.

End Construction.

Arguments registry_get {Middleware} registry ware.
Arguments add_wares {Middleware AsyncClient} registry client wares added.
Arguments mkInstance {Middleware AsyncClient} mw_class mw_client.
Arguments mw_class {Middleware AsyncClient} _.
Arguments mw_client {Middleware AsyncClient} _.
Arguments mkConstructed {Store Middleware AsyncClient} _ _ _ _.
Arguments c_base_url {Store Middleware AsyncClient} _.
Arguments c_client {Store Middleware AsyncClient} _.
Arguments c_token_store {Store Middleware AsyncClient} _.
Arguments c_added {Store Middleware AsyncClient} _.
Arguments __init__ {Store Middleware AsyncClient Timeout} url_valid new_client
  registry base_url headers cookies client timeout token_store middleware.

(** ** More concrete values *)

(** A manager whose every call raises [e] without reaching the transport. *)
Definition raising (e : exn) : MiddlewareManager :=
  {| mm_behaviour := fun _ => (Raise e, 0%nat);
     mm_handed := [];
     mm_transport_calls := 0 |}.

(** A server error whose body is a JSON list. *)
Definition json_list_error_response : Response :=
  mkResponse 500 "[1]" (Some (PList [PInt 1])) JSONDecodeError.

(** An answer without content. *)
Definition no_content_response : Response :=
  mkResponse 204 "" None JSONDecodeError.

(** A gateway error whose body is not valid UTF-8. *)
Definition undecodable_response : Response :=
  mkResponse 502 "?" None UnicodeDecodeError.

(** A registry of two middleware classes, named by strings. *)
Definition demo_registry : list (string * string) :=
  [("auth", "AuthMiddleware"); ("retry", "RetryMiddleware")].

(** A URL check and an httpx client factory to run the constructor with:
    clients are numbered, and a fresh one is number zero. *)
Definition demo_url_valid (base_url : string) : bool :=
  String.prefix "http" base_url.

Definition demo_new_client (headers cookies : gmap string string)
  (timeout : option Z) : nat := 0%nat.

(** * Properties *)

(** ** Strings *)

Lemma prefix_slash_cons (path : string) :
  String.prefix "/" ("/" +:+ path) = true.
Proof. by destruct path. Qed.

Lemma leading_separators_prefix (path : string) :
  String.prefix "/" path = negb (Nat.eqb (leading_separators path) 0).
Proof.
  destruct path as [|c rest]; [reflexivity|].
  simpl. destruct (Ascii.ascii_dec "/"%char c) as [<-|Hne].
  - simpl. by destruct rest.
  - destruct c as [[] [] [] [] [] [] [] []]; try reflexivity.
    by destruct Hne.
Qed.

Lemma append_inj_l (base a b : string) :
  base +:+ a = base +:+ b -> a = b.
Proof.
  induction base as [|c base IH]; simpl; [done|].
  intros Heq. injection Heq as Heq. by apply IH.
Qed.

(** ** [build_url] *)

Section BuildUrl.

Context {Store : Type} `{TokenStore Store}.

(** What [build_url] computes, and that it returns without touching the
    client. *)
Lemma build_url_eq (self : Client Store) (path : string) :
  build_url path self =
    (Return (_base_url self +:+ (if String.prefix "/" path then path else "/" +:+ path)),
     self).
Proof. unfold build_url. by destruct (String.prefix "/" path). Qed.

(** C7: for every client (hence every base URL) and every path [x] that
    does not start with a separator, [build_url x] and [build_url ("/" + x)]
    return the same absolute URL, namely the base URL followed by ["/"] and
    [x]; both calls return normally and leave the client as it was. *)
Theorem build_url_leading_separator (self : Client Store) (x : string) :
  String.prefix "/" x = false ->
  build_url x self = build_url ("/" +:+ x) self /\
  build_url x self = (Return (_base_url self +:+ "/" +:+ x), self) /\
  (build_url x self).2 = self /\
  (build_url ("/" +:+ x) self).2 = self.
Proof.
  intros Hx. rewrite !build_url_eq, Hx, prefix_slash_cons. by simpl.
Qed.

(** C8, as the code has it: [build_url] returns the base URL followed by
    the path, to which one ["/"] is prepended only when the path does not
    already start with one.  The path part of the result therefore starts
    with as many separators as the given path, and with one when it had
    none: exactly one separator when the given path has at most one,
    and the surplus is kept otherwise. *)
Theorem build_url_path_part (self : Client Store) (path : string) :
  exists part,
    build_url path self = (Return (_base_url self +:+ part), self) /\
    part = (if String.prefix "/" path then path else "/" +:+ path) /\
    leading_separators part = Nat.max 1 (leading_separators path) /\
    strip_leading part = strip_leading path /\
    (Nat.leb (leading_separators path) 1 = true ->
     part = single_leading_separator path).
Proof.
  eexists. split; [apply build_url_eq|]. split; [done|].
  rewrite leading_separators_prefix.
  destruct path as [|c rest]; [by split_and!|].
  destruct (Ascii.ascii_dec c "/"%char) as [->|Hne].
  - simpl. split_and!; [lia|done|].
    destruct rest as [|c' rest']; [done|].
    destruct (Ascii.ascii_dec c' "/"%char) as [->|Hne']; [done|].
    intros _. unfold single_leading_separator. simpl.
    destruct c' as [[] [] [] [] [] [] [] []]; try reflexivity.
    by destruct Hne'.
  - assert (Hls : leading_separators (String c rest) = 0%nat).
    { simpl. destruct c as [[] [] [] [] [] [] [] []]; try reflexivity.
      by destruct Hne. }
    assert (Hst : strip_leading (String c rest) = String c rest).
    { simpl. destruct c as [[] [] [] [] [] [] [] []]; try reflexivity.
      by destruct Hne. }
    rewrite Hls. simpl Nat.eqb. simpl negb. cbv iota.
    change (leading_separators ("/" +:+ String c rest))
      with (S (leading_separators (String c rest))).
    change (strip_leading ("/" +:+ String c rest))
      with (strip_leading (String c rest)).
    unfold single_leading_separator. rewrite Hls, Hst. by split_and!.
Qed.

End BuildUrl.

(** The run of [build_url_leading_separator] on the path ["dids/"]. *)
Lemma build_url_leading_separator_witness :
  build_url "dids/" (demo_client None ok_response) =
    build_url "/dids/" (demo_client None ok_response) /\
  build_url "dids/" (demo_client None ok_response) =
    (Return "https://api.example.com/dids/", demo_client None ok_response).
Proof.
  destruct (build_url_leading_separator (demo_client None ok_response) "dids/")
    as (H1 & H2 & _); [reflexivity|].
  split; [exact H1|exact H2].
Defined.

(** The run of [build_url_path_part] on a path with one separator. *)
Lemma build_url_path_part_witness :
  exists part,
    build_url "/dids/" (demo_client None ok_response) =
      (Return ("https://api.example.com" +:+ part), demo_client None ok_response) /\
    part = single_leading_separator "/dids/".
Proof.
  destruct (build_url_path_part (demo_client None ok_response) "/dids/")
    as (part & H1 & _ & _ & _ & H5).
  exists part. split; [exact H1|]. apply H5. reflexivity.
Defined.

(** C8 as stated fails: given a path with two leading separators,
    [build_url] keeps both, so the path part of the result does not begin
    with exactly one separator and differs from the normal form. *)
Lemma build_url_keeps_extra_separators :
  build_url "//dids/" (demo_client None ok_response) =
    (Return "https://api.example.com//dids/", demo_client None ok_response) /\
  ~ (exists part,
       build_url "//dids/" (demo_client None ok_response) =
         (Return (_base_url (demo_client None ok_response) +:+ part),
          demo_client None ok_response) /\
       leading_separators part = 1%nat) /\
  build_url "//dids/" (demo_client None ok_response) <>
    (Return (_base_url (demo_client None ok_response)
             +:+ single_leading_separator "//dids/"),
     demo_client None ok_response).
Proof.
  split; [reflexivity|]. split.
  - intros (part & Heq & Hone).
    injection Heq as Heq. apply append_inj_l in Heq. subst part.
    discriminate Hone.
  - intros Heq. discriminate Heq.
Qed.

(** ** [send] *)

(** ** [send] *)

Section Send.

Context {Store : Type} `{TokenStore Store}.
Variable settings : Settings.
Variable py_repr : pyvalue -> string.

Implicit Types (self : Client Store) (st : Store) (resp : Response).

(** The arguments [send] passes to [build_request] when the store is [st]. *)
Local Abbreviation request_of self st verb path body upload_file query caller_headers jar :=
  {| method := verb;
     url := _base_url self +:+ (if String.prefix "/" path then path else "/" +:+ path);
     data := if is_none body then PDict [] else body;
     files := upload_file;
     params := Some (default ∅ query);
     headers :=
       Some (if truthy (get_token st (CLIENT_ID settings))
             then {[ "Authorization" :=
                       "Bearer " +:+
                       py_str py_repr (get_token st (CLIENT_ID settings)) ]}
             else default ∅ caller_headers);
     cookies := Some (default ∅ jar) |}.

(** The client after the manager has been handed [request]. *)
Local Abbreviation after_handing self request :=
  (mkClient (_base_url self) (_client self) (token_store self)
     (manager_send (middleware_manager self) request).2).

(** Without a token store [send] stops at [_get_token]. *)
Lemma send_without_store self method url data upload_file params headers cookies :
  token_store self = None ->
  send settings py_repr method url data upload_file params headers cookies self =
    (Raise (LookupError "No token_path store registered to this client"), self).
Proof. intros Hts. unfold send, bind, _get_token. by rewrite Hts. Qed.

(** With a token store, [send] builds its request; if httpx refuses to
    build it the exception comes out and nothing is handed over,
    otherwise the manager is handed the request and [send] classifies
    what comes back. *)
Lemma send_with_store self st verb path body upload_file query caller_headers jar :
  token_store self = Some st ->
  send settings py_repr verb path body upload_file query caller_headers jar self =
    match request_failure (_client self)
            (request_of self st verb path body upload_file query caller_headers jar)
    with
    | Some e => (Raise e, self)
    | None =>
        match (mm_behaviour (middleware_manager self)
                 (request_of self st verb path body upload_file query
                    caller_headers jar)).1
        with
        | Raise e =>
            (Raise e,
             after_handing self
               (request_of self st verb path body upload_file query
                  caller_headers jar))
        | Return resp =>
            (if status_code resp >=? 300 then
               match body_json resp with
               | None =>
                   if match json_failure resp with
                      | KeyError _ | AttributeError => true
                      | _ => false
                      end
                   then Raise (RequestException (status_code resp)
                                 ("Request was unsuccessful: " +:+ text resp))
                   else Raise (json_failure resp)
               | Some (PDict kvs) =>
                   Raise (RequestException (status_code resp)
                            ("Request was unsuccessful: " +:+
                             match dict_get "detail" kvs with
                             | Some detail => py_str py_repr detail
                             | None => text resp
                             end))
               | Some _ => Raise TypeError
               end
             else Return resp,
             after_handing self
               (request_of self st verb path body upload_file query
                  caller_headers jar))
        end
    end.
Proof.
  intros Hts.
  unfold send, bind at 1, _get_token. rewrite Hts.
  unfold bind at 1. rewrite build_url_eq.
  unfold bind at 1, build_request. simpl default.
  destruct (request_failure _ _) as [e|]; simpl; [reflexivity|].
  unfold bind at 1, middleware_send, manager_send.
  destruct (mm_behaviour _ _) as [[resp|e] n]; simpl; rewrite ?Hts; [|done].
  destruct (status_code resp >=? 300); [|done].
  unfold bind, try_except, resp_json, subscript, raise, ret.
  destruct (body_json resp) as [[| | | | |kvs]|]; simpl; try done.
  - by destruct (dict_get "detail" kvs).
  - by destruct (json_failure resp).
Qed.

(** What [send] leaves behind: the client as it was, or the client after
    the manager was handed the request that httpx agreed to build. *)
Lemma send_state self verb path body upload_file query caller_headers jar :
  (send settings py_repr verb path body upload_file query caller_headers jar self).2
    = self \/
  exists st,
    token_store self = Some st /\
    request_failure (_client self)
      (request_of self st verb path body upload_file query caller_headers jar)
      = None /\
    (send settings py_repr verb path body upload_file query caller_headers jar
       self).2 =
      after_handing self
        (request_of self st verb path body upload_file query caller_headers jar).
Proof.
  destruct (token_store self) as [st|] eqn:Hts.
  - rewrite (send_with_store _ _ _ _ _ _ _ _ _ Hts).
    destruct (request_failure _ _) as [e|] eqn:Hfail; [by left|].
    right. exists st. split_and!; try done.
    unfold manager_send.
    destruct (mm_behaviour _ _) as [[resp|e] n]; simpl; by rewrite Hts.
  - left. by rewrite send_without_store.
Qed.

Lemma send_handed self st verb path body upload_file query caller_headers jar :
  token_store self = Some st ->
  request_failure (_client self)
    (request_of self st verb path body upload_file query caller_headers jar) = None ->
  mm_handed (middleware_manager
    (send settings py_repr verb path body upload_file query caller_headers jar
       self).2) =
  mm_handed (middleware_manager self) ++
    [request_of self st verb path body upload_file query caller_headers jar].
Proof.
  intros Hts Hfail. rewrite (send_with_store _ _ _ _ _ _ _ _ _ Hts), Hfail.
  unfold manager_send.
  destruct (mm_behaviour _ _) as [[resp|e] n]; by simpl.
Qed.

Lemma app_singleton_neq {A} (l : list A) (x : A) : l <> l ++ [x].
Proof.
  intros Heq. apply (f_equal length) in Heq.
  rewrite length_app in Heq. simpl in Heq. lia.
Qed.

(** A request was handed over only if a store is registered and httpx
    built the request; it is then the request of [send_with_store]. *)
Lemma send_handed_inv
  self verb path body upload_file query caller_headers jar request :
  mm_handed (middleware_manager
    (send settings py_repr verb path body upload_file query caller_headers jar
       self).2) = mm_handed (middleware_manager self) ++ [request] ->
  exists st,
    token_store self = Some st /\
    request = request_of self st verb path body upload_file query caller_headers jar /\
    request_failure (_client self) request = None.
Proof.
  intros Hhanded.
  destruct (send_state self verb path body upload_file query caller_headers jar)
    as [Hsame | (st & Hts & Hfail & Hstate)].
  - rewrite Hsame in Hhanded. by apply app_singleton_neq in Hhanded.
  - exists st. rewrite Hstate in Hhanded. unfold manager_send in Hhanded.
    destruct (mm_behaviour _ _) as [r n]. simpl in Hhanded.
    apply app_inj_tail in Hhanded as [_ <-]. by split_and!.
Qed.

(** The outcome of [send] once it is known which request was handed over. *)
Lemma send_outcome
  self verb path body upload_file query caller_headers jar request :
  mm_handed (middleware_manager
    (send settings py_repr verb path body upload_file query caller_headers jar
       self).2) = mm_handed (middleware_manager self) ++ [request] ->
  (send settings py_repr verb path body upload_file query caller_headers jar self).1 =
    match (mm_behaviour (middleware_manager self) request).1 with
    | Raise e => Raise e
    | Return resp =>
        if status_code resp >=? 300 then
          match body_json resp with
          | None =>
              if match json_failure resp with
                 | KeyError _ | AttributeError => true
                 | _ => false
                 end
              then Raise (RequestException (status_code resp)
                            ("Request was unsuccessful: " +:+ text resp))
              else Raise (json_failure resp)
          | Some (PDict kvs) =>
              Raise (RequestException (status_code resp)
                       ("Request was unsuccessful: " +:+
                        match dict_get "detail" kvs with
                        | Some detail => py_str py_repr detail
                        | None => text resp
                        end))
          | Some _ => Raise TypeError
          end
        else Return resp
    end.
Proof.
  intros Hhanded.
  destruct (send_handed_inv _ _ _ _ _ _ _ _ _ Hhanded) as (st & Hts & -> & Hfail).
  rewrite (send_with_store _ _ _ _ _ _ _ _ _ Hts), Hfail.
  destruct (mm_behaviour _ _) as [[resp|e] n]; by simpl.
Qed.

Lemma truthy_token (tok : string) : tok <> "" -> truthy (PStr tok) = true.
Proof. intros Hne. simpl. by destruct tok. Qed.

(** C6: on a client constructed without a token store, [send] raises the
    lookup error of [_get_token] and leaves the client untouched: nothing
    was handed to the middleware manager and the transport was not
    invoked. *)
Theorem send_missing_store
  self method url data upload_file params caller_headers cookies :
  token_store self = None ->
  send settings py_repr method url data upload_file params caller_headers cookies self =
    (Raise (LookupError "No token_path store registered to this client"), self) /\
  mm_handed (middleware_manager
    (send settings py_repr method url data upload_file params caller_headers cookies
       self).2) = mm_handed (middleware_manager self) /\
  mm_transport_calls (middleware_manager
    (send settings py_repr method url data upload_file params caller_headers cookies
       self).2) = mm_transport_calls (middleware_manager self).
Proof. intros Hts. by rewrite send_without_store. Qed.

(** C2, as the code has it: when the response to the request that [send]
    handed over has a status of 300 or more and its body is a JSON object,
    [send] raises a [RequestException] with that status whose message is
    ["Request was unsuccessful: "] followed by the [detail] entry of the
    object (as [str()] renders it) when the object has that key, and
    followed by the raw response text otherwise. *)
Theorem send_failure_message
  self st method url data upload_file params caller_headers cookies request resp kvs :
  token_store self = Some st ->
  mm_handed (middleware_manager
    (send settings py_repr method url data upload_file params caller_headers cookies
       self).2) = mm_handed (middleware_manager self) ++ [request] ->
  (mm_behaviour (middleware_manager self) request).1 = Return resp ->
  300 <= status_code resp ->
  body_json resp = Some (PDict kvs) ->
  (send settings py_repr method url data upload_file params caller_headers cookies
     self).1 =
    Raise (RequestException (status_code resp)
             ("Request was unsuccessful: " +:+
              match dict_get "detail" kvs with
              | Some detail => py_str py_repr detail
              | None => text resp
              end)).
Proof.
  intros Hts Hhanded Hresp Hstatus Hbody.
  rewrite (send_outcome _ _ _ _ _ _ _ _ _ Hhanded), Hresp, Hbody.
  rewrite Z.geb_leb. by rewrite (proj2 (Z.leb_le _ _) Hstatus).
Qed.

(** A response below 300 is returned as it came. *)
Lemma send_success
  self st method url data upload_file params caller_headers cookies request resp :
  token_store self = Some st ->
  mm_handed (middleware_manager
    (send settings py_repr method url data upload_file params caller_headers cookies
       self).2) = mm_handed (middleware_manager self) ++ [request] ->
  (mm_behaviour (middleware_manager self) request).1 = Return resp ->
  status_code resp < 300 ->
  (send settings py_repr method url data upload_file params caller_headers cookies
     self).1 = Return resp.
Proof.
  intros Hts Hhanded Hresp Hstatus.
  rewrite (send_outcome _ _ _ _ _ _ _ _ _ Hhanded), Hresp.
  rewrite Z.geb_leb. by rewrite (proj2 (Z.leb_gt _ _) Hstatus).
Qed.

(** A response of 300 or more whose body [resp.json()] cannot decode makes
    [send] raise the exception of [resp.json()], which the [except] clause
    does not catch unless it is a [KeyError] or an [AttributeError]. *)
Lemma send_failure_not_json
  self st method url data upload_file params caller_headers cookies request resp :
  token_store self = Some st ->
  mm_handed (middleware_manager
    (send settings py_repr method url data upload_file params caller_headers cookies
       self).2) = mm_handed (middleware_manager self) ++ [request] ->
  (mm_behaviour (middleware_manager self) request).1 = Return resp ->
  300 <= status_code resp ->
  body_json resp = None ->
  (send settings py_repr method url data upload_file params caller_headers cookies
     self).1 =
    if match json_failure resp with
       | KeyError _ | AttributeError => true
       | _ => false
       end
    then Raise (RequestException (status_code resp)
                  ("Request was unsuccessful: " +:+ text resp))
    else Raise (json_failure resp).
Proof.
  intros Hts Hhanded Hresp Hstatus Hbody.
  rewrite (send_outcome _ _ _ _ _ _ _ _ _ Hhanded), Hresp, Hbody.
  rewrite Z.geb_leb. by rewrite (proj2 (Z.leb_le _ _) Hstatus).
Qed.

(** ** [post] *)

(** C5, as the code has it: [post] with neither an upload file nor body
    data (each absent or empty) raises the malformed-request error at
    once: the client is left as it was, so nothing was handed to the
    middleware manager and the transport invocation count did not move.
    With a non-empty upload file or non-empty body data, [post] is [send]
    with method [POST]. *)
Theorem post_requires_payload
  self url data upload_file params caller_headers cookies :
  (truthy upload_file = false -> truthy data = false ->
     post settings py_repr url data upload_file params caller_headers cookies self =
       (Raise (RequestException 400
                 "Post requests must either send an upload_file or data."), self) /\
     mm_handed (middleware_manager
       (post settings py_repr url data upload_file params caller_headers cookies
          self).2) = mm_handed (middleware_manager self) /\
     mm_transport_calls (middleware_manager
       (post settings py_repr url data upload_file params caller_headers cookies
          self).2) = mm_transport_calls (middleware_manager self)) /\
  (truthy upload_file = true \/ truthy data = true ->
     post settings py_repr url data upload_file params caller_headers cookies self =
       send settings py_repr "POST" url data upload_file params caller_headers cookies
         self).
Proof.
  unfold post. split.
  - by intros -> ->.
  - intros [-> | ->]; [done|]. by rewrite andb_false_r.
Qed.

(** ** [authorise] *)

(** The arguments [authorise] passes to [build_request]. *)
Local Abbreviation token_request token_url caller_headers :=
  {| method := "POST";
     url := token_url;
     data := PDict [("grant_type", PStr "client_credentials");
                    ("client_id", PStr (CLIENT_ID settings));
                    ("client_secret", PStr (CLIENT_SECRET settings))];
     files := PNone;
     params := None;
     headers := Some (default ∅ caller_headers);
     cookies := None |}.

(** What [authorise] does once the request is handed over. *)
Local Abbreviation authorise_answered self resp request :=
  (if status_code resp =? 200 then
     match token_store self with
     | None =>
         (Raise (LookupError "No token_path store registered to this client"),
          after_handing self request)
     | Some store =>
         (let* body := resp_json resp in
          let* token := subscript body "access_token" in
          let* body' := resp_json resp in
          let* expires := subscript body' "expires_at" in
          store_set_token store (CLIENT_ID settings) token expires)
           (after_handing self request)
     end
   else
     (Raise (RequestException (status_code resp)
               ("Authorization failed: " +:+ text resp)),
      after_handing self request)).

(** [authorise] builds its request; if httpx refuses, the exception comes
    out and nothing is handed over. *)
Lemma authorise_run self token_url caller_headers :
  authorise settings token_url caller_headers self =
    match request_failure (_client self) (token_request token_url caller_headers) with
    | Some e => (Raise e, self)
    | None =>
        match (mm_behaviour (middleware_manager self)
                 (token_request token_url caller_headers)).1 with
        | Raise e =>
            (Raise e, after_handing self (token_request token_url caller_headers))
        | Return resp =>
            authorise_answered self resp (token_request token_url caller_headers)
        end
    end.
Proof.
  unfold authorise, bind at 1, build_request.
  destruct (request_failure _ _) as [e|]; simpl; [reflexivity|].
  unfold bind at 1, middleware_send, manager_send.
  destruct (mm_behaviour _ _) as [[resp|e] n]; simpl; [|done].
  by destruct (status_code resp =? 200).
Qed.

(** Running the stored-token path does not touch the manager. *)
Lemma authorise_answered_handed self resp request :
  mm_handed (middleware_manager (authorise_answered self resp request).2) =
    mm_handed (middleware_manager self) ++ [request].
Proof.
  unfold manager_send. destruct (mm_behaviour _ _) as [r n].
  destruct (status_code resp =? 200); [|done].
  destruct (token_store self) as [store|]; [|done].
  unfold bind, resp_json, subscript, store_set_token, ret, raise.
  destruct (body_json resp) as [[| | | | |kvs]|]; simpl; try done.
  destruct (dict_get "access_token" kvs); simpl; [|done].
  by destruct (dict_get "expires_at" kvs).
Qed.

(** A request was handed over only if httpx built it; it is then the token
    request, and [authorise] goes on with the manager's answer. *)
Lemma authorise_handed_inv self token_url caller_headers request :
  mm_handed (middleware_manager
    (authorise settings token_url caller_headers self).2) =
    mm_handed (middleware_manager self) ++ [request] ->
  request = token_request token_url caller_headers /\
  request_failure (_client self) request = None /\
  authorise settings token_url caller_headers self =
    match (mm_behaviour (middleware_manager self) request).1 with
    | Raise e => (Raise e, after_handing self request)
    | Return resp => authorise_answered self resp request
    end.
Proof.
  rewrite authorise_run.
  destruct (request_failure _ _) as [e|] eqn:Hfail.
  { intros Hhanded. by apply app_singleton_neq in Hhanded. }
  intros Hhanded.
  assert (request = token_request token_url caller_headers) as ->; [|done].
  destruct (mm_behaviour (middleware_manager self)
              (token_request token_url caller_headers)).1 as [resp|e] eqn:Hanswer.
  - rewrite authorise_answered_handed in Hhanded.
    by apply app_inj_tail in Hhanded as [_ <-].
  - unfold manager_send in Hhanded. destruct (mm_behaviour _ _) as [r n].
    simpl in Hhanded. by apply app_inj_tail in Hhanded as [_ <-].
Qed.

(** C4: when the token endpoint answers the request of [authorise] with
    status 200 and the body
    [{"access_token": "tok123", "expires_at": 1700000000}], [authorise]
    returns and the client's token store then yields ["tok123"] for the
    client id.  When it answers with any other status, [authorise] raises a
    [RequestException] carrying that status and the body text, and the
    token store is the one the client had before, so every token stored
    earlier is still there. *)
Theorem authorise_stores_token self token_url caller_headers request resp :
  mm_handed (middleware_manager
    (authorise settings token_url caller_headers self).2) =
    mm_handed (middleware_manager self) ++ [request] ->
  (mm_behaviour (middleware_manager self) request).1 = Return resp ->
  (status_code resp = 200 ->
   body_json resp =
     Some (PDict [("access_token", PStr "tok123");
                  ("expires_at", PInt 1700000000)]) ->
   forall st, token_store self = Some st ->
     exists st',
       (authorise settings token_url caller_headers self).1 = Return tt /\
       token_store (authorise settings token_url caller_headers self).2 = Some st' /\
       get_token st' (CLIENT_ID settings) = PStr "tok123") /\
  (status_code resp <> 200 ->
     (authorise settings token_url caller_headers self).1 =
       Raise (RequestException (status_code resp)
                ("Authorization failed: " +:+ text resp)) /\
     token_store (authorise settings token_url caller_headers self).2 =
       token_store self).
Proof.
  intros Hhanded Hresp.
  destruct (authorise_handed_inv _ _ _ _ Hhanded) as (_ & _ & ->).
  rewrite Hresp. split.
  - intros Hstatus Hbody st Hts.
    rewrite Hstatus, Hts. simpl Z.eqb. cbv iota.
    unfold bind, resp_json, subscript, store_set_token, ret. rewrite Hbody. simpl.
    eexists. split_and!; [done|done|]. apply get_token_set_token.
  - intros Hstatus. by rewrite (proj2 (Z.eqb_neq _ _) Hstatus).
Qed.

(** C10: on a client without a token store, a non-200 answer of the token
    endpoint makes [authorise] raise the authorization failure with that
    status and the body text; a 200 answer makes it raise the lookup
    error.  So the lookup error is raised exactly when the status is 200:
    the store is looked for only after the status check. *)
Theorem authorise_checks_status_first self token_url caller_headers request resp :
  token_store self = None ->
  mm_handed (middleware_manager
    (authorise settings token_url caller_headers self).2) =
    mm_handed (middleware_manager self) ++ [request] ->
  (mm_behaviour (middleware_manager self) request).1 = Return resp ->
  (status_code resp <> 200 ->
     (authorise settings token_url caller_headers self).1 =
       Raise (RequestException (status_code resp)
                ("Authorization failed: " +:+ text resp))) /\
  (status_code resp = 200 ->
     (authorise settings token_url caller_headers self).1 =
       Raise (LookupError "No token_path store registered to this client")) /\
  ((authorise settings token_url caller_headers self).1 =
     Raise (LookupError "No token_path store registered to this client") <->
   status_code resp = 200).
Proof.
  intros Hts Hhanded Hresp.
  destruct (authorise_handed_inv _ _ _ _ Hhanded) as (_ & _ & ->).
  rewrite Hresp, Hts.
  destruct (Z.eqb_spec (status_code resp) 200) as [Heq|Hne]; simpl.
  - split_and!; [done|done|]. by split.
  - split_and!; [done|done|]. by split.
Qed.

End Send.
(** ** The generated endpoint methods *)




Section Generated.

Context {Store : Type} `{TokenStore Store}.
Variable settings : Settings.
Variable py_repr : pyvalue -> string.
Variable Model : Type.
Variable model_validate : string -> pyvalue -> option Model.

Implicit Types (self : Client Store) (st : Store) (resp : Response).



(** Parsing the response does not touch the client, so what a generated
    method has handed to the manager is what its verb call handed. *)
Lemma parse_after_call {A}
  (call : M Store Response) (parse : Response -> M Store A) self :
  (forall resp self', (parse resp self').2 = self') ->
  ((let* resp := call in parse resp) self).2 = (call self).2.
Proof.
  intros Hparse. unfold bind. destruct (call self) as [[resp|e] self']; [|done].
  apply Hparse.
Qed.



End Generated.
(** * The model run on concrete clients *)



(** [send_missing_store] on a client built without a store. *)
Lemma send_missing_store_witness :
  demo_get (demo_client None ok_response) None =
    (Raise (LookupError "No token_path store registered to this client"),
     demo_client None ok_response).
Proof.
  exact (proj1 (send_missing_store demo_settings demo_repr
                  (demo_client None ok_response)
                  "GET" "/dids/" PNone PNone None None None eq_refl)).
Defined.

(** [send_failure_message] on a 404 answer with a [detail] entry. *)
Lemma send_failure_message_witness :
  (demo_get (demo_client (Some (store_with (PStr "tok123"))) not_found_response)
     None).1 =
    Raise (RequestException 404 "Request was unsuccessful: Not found").
Proof.
  refine (send_failure_message demo_settings demo_repr
            (demo_client (Some (store_with (PStr "tok123"))) not_found_response)
            (store_with (PStr "tok123"))
            "GET" "/dids/" PNone PNone None None None _
            not_found_response [("detail", PStr "Not found")]
            eq_refl eq_refl eq_refl _ eq_refl).
  simpl. lia.
Defined.

(** C2 as stated fails: for a 404 answer whose JSON body has the [detail]
    entry ["Not found"], the message of the raised exception is not that
    entry but the entry behind a fixed prefix. *)
Lemma send_message_is_prefixed :
  body_json not_found_response = Some (PDict [("detail", PStr "Not found")]) /\
  exists message,
    (demo_get (demo_client (Some (store_with (PStr "tok123"))) not_found_response)
       None).1 = Raise (RequestException 404 message) /\
    message = "Request was unsuccessful: Not found" /\
    message <> "Not found".
Proof.
  split; [reflexivity|].
  eexists. split; [reflexivity|]. split; [reflexivity|]. discriminate.
Qed.

(** C3 at a failing input: the manager delivers a 502 answer whose body is
    plain text.  [send] does not raise a [RequestException] carrying 502:
    the [JSONDecodeError] of [resp.json()] escapes instead. *)
Theorem send_non_json_failure_escapes :
  300 <= status_code gateway_error_response /\
  (demo_get (demo_client (Some (store_with (PStr "tok123"))) gateway_error_response)
     None).1 = Raise JSONDecodeError /\
  forall message,
    (demo_get (demo_client (Some (store_with (PStr "tok123"))) gateway_error_response)
       None).1 <> Raise (RequestException 502 message).
Proof.
  split; [simpl; lia|]. split; [reflexivity|].
  intros message Heq. discriminate Heq.
Qed.

(** C5 as stated fails for a body that is supplied but empty: [post] is
    given an empty dict, respectively an empty string, as [data] (not
    [None]) and raises the malformed-request error all the same. *)
Lemma post_empty_body_rejected :
  is_none (PDict []) = false /\ is_none (PStr "") = false /\
  post demo_settings demo_repr "/verify/vc/" (PDict []) PNone None None None
    (demo_client (Some (store_with (PStr "tok123"))) ok_response) =
    (Raise (RequestException 400
              "Post requests must either send an upload_file or data."),
     demo_client (Some (store_with (PStr "tok123"))) ok_response) /\
  post demo_settings demo_repr "/verify/vc/" (PStr "") PNone None None None
    (demo_client (Some (store_with (PStr "tok123"))) ok_response) =
    (Raise (RequestException 400
              "Post requests must either send an upload_file or data."),
     demo_client (Some (store_with (PStr "tok123"))) ok_response).
Proof. by split_and!. Qed.

(** [post_requires_payload] on a call without payload and on a call with a
    serialized body. *)
Lemma post_requires_payload_witness :
  post demo_settings demo_repr "/verify/vc/" PNone PNone None None None
    (demo_client (Some (store_with (PStr "tok123"))) ok_response) =
    (Raise (RequestException 400
              "Post requests must either send an upload_file or data."),
     demo_client (Some (store_with (PStr "tok123"))) ok_response) /\
  post demo_settings demo_repr "/verify/vc/" (PStr "{}") PNone None None None
    (demo_client (Some (store_with (PStr "tok123"))) ok_response) =
    send demo_settings demo_repr "POST" "/verify/vc/" (PStr "{}") PNone None None None
      (demo_client (Some (store_with (PStr "tok123"))) ok_response).
Proof.
  split.
  - exact (proj1 (proj1 (post_requires_payload demo_settings demo_repr
                           (demo_client (Some (store_with (PStr "tok123"))) ok_response)
                           "/verify/vc/" PNone PNone None None None)
                    eq_refl eq_refl)).
  - exact (proj2 (post_requires_payload demo_settings demo_repr
                    (demo_client (Some (store_with (PStr "tok123"))) ok_response)
                    "/verify/vc/" (PStr "{}") PNone None None None)
             (or_intror eq_refl)).
Defined.

(** [authorise_stores_token] on an empty store and a 200 answer, and on a
    store holding ["old"] and a 401 answer. *)
Lemma authorise_stores_token_witness :
  (exists st',
     (demo_authorise (demo_client (Some ∅) token_response)).1 = Return tt /\
     token_store (demo_authorise (demo_client (Some ∅) token_response)).2 = Some st' /\
     get_token st' (CLIENT_ID demo_settings) = PStr "tok123") /\
  (demo_authorise
     (demo_client (Some (store_with (PStr "old"))) unauthorized_response)).1 =
    Raise (RequestException 401 "Authorization failed: invalid client") /\
  token_store
    (demo_authorise
       (demo_client (Some (store_with (PStr "old"))) unauthorized_response)).2 =
    Some (store_with (PStr "old")).
Proof.
  split.
  - exact (proj1 (authorise_stores_token demo_settings
                    (demo_client (Some ∅) token_response)
                    (TOKEN_URL demo_settings) None _ token_response
                    eq_refl eq_refl)
             eq_refl eq_refl ∅ eq_refl).
  - apply (proj2 (authorise_stores_token demo_settings
                    (demo_client (Some (store_with (PStr "old"))) unauthorized_response)
                    (TOKEN_URL demo_settings) None _ unauthorized_response
                    eq_refl eq_refl)).
    simpl. lia.
Defined.

(** [authorise_checks_status_first] on a client without a store and a 401
    answer. *)
Lemma authorise_checks_status_first_witness :
  (demo_authorise (demo_client None unauthorized_response)).1 =
    Raise (RequestException 401 "Authorization failed: invalid client").
Proof.
  apply (proj1 (authorise_checks_status_first demo_settings
                  (demo_client None unauthorized_response)
                  (TOKEN_URL demo_settings) None _ unauthorized_response
                  eq_refl eq_refl eq_refl)).
  simpl. lia.
Defined.


(** * Further properties of the client *)

Section SendOutcomes.

Context {Store : Type} `{TokenStore Store}.
Variable settings : Settings.
Variable py_repr : pyvalue -> string.

Implicit Types (self : Client Store) (st : Store) (resp : Response).

(** X1: [send] returns normally exactly when the delivered response has a
    status below 300, and what it returns is that response. *)
Theorem send_returns_iff
  self st method url data upload_file params caller_headers cookies request resp :
  token_store self = Some st ->
  mm_handed (middleware_manager
    (send settings py_repr method url data upload_file params caller_headers cookies
       self).2) = mm_handed (middleware_manager self) ++ [request] ->
  (mm_behaviour (middleware_manager self) request).1 = Return resp ->
  forall returned,
    (send settings py_repr method url data upload_file params caller_headers cookies
       self).1 = Return returned <->
    status_code resp < 300 /\ returned = resp.
Proof.
  intros Hts Hhanded Hresp returned.
  rewrite (send_outcome _ _ _ _ _ _ _ _ _ _ _ Hhanded), Hresp, Z.geb_leb.
  destruct (Z.leb_spec 300 (status_code resp)) as [Hge|Hlt].
  - split; [|lia]. intros Hret.
    destruct (body_json resp) as [[| | | | |kvs]|]; try discriminate Hret.
    destruct (json_failure resp); discriminate Hret.
  - split; [intros [= ->]; by split|by intros [_ ->]].
Qed.

(** X2: a response of 300 or more whose body is not a JSON object does not
    become the [RequestException] with the [detail] message.  When
    [resp.json()] raises ([JSONDecodeError] for a body that is not JSON,
    [UnicodeDecodeError] for one that is not valid UTF-8), its exception
    comes out of [send], unless it is a [KeyError] or an [AttributeError],
    which the handler turns into the [RequestException] with the raw
    text.  JSON that is not an object raises [TypeError]. *)
Theorem send_failure_body_not_object
  self st method url data upload_file params caller_headers cookies request resp :
  token_store self = Some st ->
  mm_handed (middleware_manager
    (send settings py_repr method url data upload_file params caller_headers cookies
       self).2) = mm_handed (middleware_manager self) ++ [request] ->
  (mm_behaviour (middleware_manager self) request).1 = Return resp ->
  300 <= status_code resp ->
  (body_json resp = None ->
     (send settings py_repr method url data upload_file params caller_headers cookies
        self).1 =
       if match json_failure resp with
          | KeyError _ | AttributeError => true
          | _ => false
          end
       then Raise (RequestException (status_code resp)
                     ("Request was unsuccessful: " +:+ text resp))
       else Raise (json_failure resp)) /\
  (forall body, body_json resp = Some body ->
     (forall kvs, body <> PDict kvs) ->
     (send settings py_repr method url data upload_file params caller_headers cookies
        self).1 = Raise TypeError).
Proof.
  intros Hts Hhanded Hresp Hge.
  rewrite (send_outcome _ _ _ _ _ _ _ _ _ _ _ Hhanded), Hresp.
  rewrite Z.geb_leb, (proj2 (Z.leb_le _ _) Hge). split.
  - by intros ->.
  - intros body -> Hobj. destruct body as [| | | | |kvs]; try done.
    by destruct (Hobj kvs).
Qed.

(** X3: an exception raised by the middleware manager (a middleware stage or
    the transport) comes out of [send] unchanged. *)
Theorem send_propagates_manager_error
  self st method url data upload_file params caller_headers cookies request e :
  token_store self = Some st ->
  mm_handed (middleware_manager
    (send settings py_repr method url data upload_file params caller_headers cookies
       self).2) = mm_handed (middleware_manager self) ++ [request] ->
  (mm_behaviour (middleware_manager self) request).1 = Raise e ->
  (send settings py_repr method url data upload_file params caller_headers cookies
     self).1 = Raise e.
Proof.
  intros Hts Hhanded Hresp.
  by rewrite (send_outcome _ _ _ _ _ _ _ _ _ _ _ Hhanded), Hresp.
Qed.

(** X4: [send] never writes to the client: the base URL, the httpx client,
    the token store and the manager's behaviour are as before, whatever
    the outcome.  The manager is handed at most one request, and one only
    if a token store is registered and httpx built the request. *)
Theorem send_preserves_client
  self method url data upload_file params caller_headers cookies :
  _base_url
    (send settings py_repr method url data upload_file params caller_headers cookies
       self).2 = _base_url self /\
  _client
    (send settings py_repr method url data upload_file params caller_headers cookies
       self).2 = _client self /\
  token_store
    (send settings py_repr method url data upload_file params caller_headers cookies
       self).2 = token_store self /\
  mm_behaviour (middleware_manager
    (send settings py_repr method url data upload_file params caller_headers cookies
       self).2) = mm_behaviour (middleware_manager self) /\
  (mm_handed (middleware_manager
     (send settings py_repr method url data upload_file params caller_headers cookies
        self).2) = mm_handed (middleware_manager self) \/
   exists request,
     mm_handed (middleware_manager
       (send settings py_repr method url data upload_file params caller_headers
          cookies self).2) = mm_handed (middleware_manager self) ++ [request] /\
     is_Some (token_store self) /\
     request_failure (_client self) request = None).
Proof.
  destruct (send_state settings py_repr self method url data upload_file params
              caller_headers cookies) as [-> | (st & Hts & Hfail & ->)].
  - split_and!; try done. by left.
  - unfold manager_send. destruct (mm_behaviour _ _) as [r n]. simpl.
    split_and!; try done. right. eexists. by split_and!.
Qed.

(** X5: every request that [send] hands over was built as follows: the
    method as given, the URL of [build_url], [data] replaced by an empty
    dict when it is [None], the upload file as [files], and absent
    [params] and [cookies] replaced by empty dicts. *)
Theorem send_builds_request
  self verb path body upload_file query caller_headers jar request :
  mm_handed (middleware_manager
    (send settings py_repr verb path body upload_file query caller_headers jar
       self).2) = mm_handed (middleware_manager self) ++ [request] ->
  method request = verb /\
  (build_url path self).1 = Return (url request) /\
  data request = (if is_none body then PDict [] else body) /\
  files request = upload_file /\
  params request = Some (default ∅ query) /\
  cookies request = Some (default ∅ jar).
Proof.
  intros Hhanded.
  destruct (send_handed_inv _ _ _ _ _ _ _ _ _ _ _ Hhanded) as (st & _ & -> & _).
  rewrite build_url_eq. by split_and!.
Qed.

End SendOutcomes.

Section AuthoriseOutcomes.

Context {Store : Type} `{TokenStore Store}.
Variable settings : Settings.
Variable py_repr : pyvalue -> string.

Implicit Types (self : Client Store) (st : Store) (resp : Response).

(** X7: whatever the store holds and whatever comes back, every request
    that [authorise] hands to the manager is a [POST] to the token URL
    exactly as given (it does not go through [build_url]), with the client
    credentials of the settings as form data, and built from the caller's
    headers only: no bearer token is attached. *)
Theorem authorise_request self token_url caller_headers request :
  mm_handed (middleware_manager
    (authorise settings token_url caller_headers self).2) =
    mm_handed (middleware_manager self) ++ [request] ->
  method request = "POST" /\
  url request = token_url /\
  data request =
    PDict [("grant_type", PStr "client_credentials");
           ("client_id", PStr (CLIENT_ID settings));
           ("client_secret", PStr (CLIENT_SECRET settings))] /\
  headers request = Some (default ∅ caller_headers) /\
  files request = PNone /\ params request = None /\ cookies request = None.
Proof.
  intros Hhanded.
  destruct (authorise_handed_inv _ _ _ _ _ Hhanded) as (-> & _ & _).
  by split_and!.
Qed.

(** The successful path of [authorise]. *)
Lemma authorise_stores
  self st token_url caller_headers request resp kvs token expires :
  token_store self = Some st ->
  mm_handed (middleware_manager
    (authorise settings token_url caller_headers self).2) =
    mm_handed (middleware_manager self) ++ [request] ->
  (mm_behaviour (middleware_manager self) request).1 = Return resp ->
  status_code resp = 200 ->
  body_json resp = Some (PDict kvs) ->
  dict_get "access_token" kvs = Some token ->
  dict_get "expires_at" kvs = Some expires ->
  (authorise settings token_url caller_headers self).1 = Return tt /\
  token_store (authorise settings token_url caller_headers self).2 =
    Some (set_token (CLIENT_ID settings) token expires st).
Proof.
  intros Hts Hhanded Hresp Hstatus Hbody Htoken Hexpires.
  destruct (authorise_handed_inv _ _ _ _ _ Hhanded) as (_ & _ & ->).
  rewrite Hresp, Hstatus, Hts. simpl Z.eqb. cbv iota.
  unfold bind, resp_json, subscript, store_set_token, ret.
  rewrite Hbody. simpl. by rewrite Htoken, Hexpires.
Qed.

(** X8: a 200 answer whose JSON object has [access_token] and [expires_at]
    makes [authorise] return and store both under the client id: the store
    then yields that token for the client id and what it yielded before
    for every other identifier. *)
Theorem authorise_success
  self st token_url caller_headers request resp kvs token expires :
  token_store self = Some st ->
  mm_handed (middleware_manager
    (authorise settings token_url caller_headers self).2) =
    mm_handed (middleware_manager self) ++ [request] ->
  (mm_behaviour (middleware_manager self) request).1 = Return resp ->
  status_code resp = 200 ->
  body_json resp = Some (PDict kvs) ->
  dict_get "access_token" kvs = Some token ->
  dict_get "expires_at" kvs = Some expires ->
  (authorise settings token_url caller_headers self).1 = Return tt /\
  token_store (authorise settings token_url caller_headers self).2 =
    Some (set_token (CLIENT_ID settings) token expires st) /\
  get_token (set_token (CLIENT_ID settings) token expires st) (CLIENT_ID settings)
    = token /\
  forall other, other <> CLIENT_ID settings ->
    get_token (set_token (CLIENT_ID settings) token expires st) other =
      get_token st other.
Proof.
  intros Hts Hhanded Hresp Hstatus Hbody Htoken Hexpires.
  destruct (authorise_stores self st token_url caller_headers request resp kvs
              token expires Hts Hhanded Hresp Hstatus Hbody Htoken Hexpires)
    as [Hret Hstore].
  split_and!; [done|done|apply get_token_set_token|].
  intros other Hne. by apply get_token_set_token_ne.
Qed.

(** X9: [authorise] writes to the token store only when it returns: whenever
    it raises, whatever the exception, the store is the one the client had
    before. *)
Theorem authorise_raise_keeps_store self token_url caller_headers e :
  (authorise settings token_url caller_headers self).1 = Raise e ->
  token_store (authorise settings token_url caller_headers self).2 =
    token_store self.
Proof.
  rewrite authorise_run.
  destruct (request_failure _ _) as [e'|]; [done|].
  unfold manager_send.
  destruct (mm_behaviour _ _) as [[resp|e'] n]; simpl; [|done].
  destruct (status_code resp =? 200); [|done].
  destruct (token_store self) as [store|] eqn:Hts; [|done].
  unfold bind, resp_json, subscript, store_set_token, ret, raise.
  destruct (body_json resp) as [[| | | | |kvs]|]; simpl; try done.
  destruct (dict_get "access_token" kvs); simpl; [|done].
  destruct (dict_get "expires_at" kvs); simpl; done.
Qed.


(** X11: after an [authorise] that stored a non-empty access token, every
    request that the next [send] on the same client hands over, after the
    token request, was built from the bearer header of that token alone,
    whatever headers the caller supplied. *)
Theorem authorise_then_send
  self st token_url auth_headers request resp kvs tok expires
  verb path body upload_file query caller_headers jar sent :
  token_store self = Some st ->
  mm_handed (middleware_manager
    (authorise settings token_url auth_headers self).2) =
    mm_handed (middleware_manager self) ++ [request] ->
  (mm_behaviour (middleware_manager self) request).1 = Return resp ->
  status_code resp = 200 ->
  body_json resp = Some (PDict kvs) ->
  dict_get "access_token" kvs = Some (PStr tok) ->
  tok <> "" ->
  dict_get "expires_at" kvs = Some expires ->
  mm_handed (middleware_manager
    (send settings py_repr verb path body upload_file query caller_headers jar
       (authorise settings token_url auth_headers self).2).2) =
    mm_handed (middleware_manager self) ++ [request; sent] ->
  headers sent = Some {[ "Authorization" := "Bearer " +:+ tok ]}.
Proof.
  intros Hts Hhanded Hresp Hstatus Hbody Htoken Hne Hexpires Hsent.
  destruct (authorise_stores self st token_url auth_headers request resp kvs
              (PStr tok) expires Hts Hhanded Hresp Hstatus Hbody Htoken Hexpires)
    as [_ Hstore].
  replace (mm_handed (middleware_manager self) ++ [request; sent])
    with ((mm_handed (middleware_manager self) ++ [request]) ++ [sent]) in Hsent
    by by rewrite <- app_assoc.
  rewrite <- Hhanded in Hsent.
  destruct (send_handed_inv _ _ _ _ _ _ _ _ _ _ _ Hsent) as (st' & Hts' & -> & _).
  rewrite Hstore in Hts'. injection Hts' as <-. simpl.
  rewrite get_token_set_token. by rewrite truthy_token.
Qed.

End AuthoriseOutcomes.

Section BuildUrlMore.

Context {Store : Type} `{TokenStore Store}.

(** X12: two paths give the same URL exactly when they are equal once a
    separator has been put in front of those that lack one: [build_url]
    tells paths apart up to one optional leading separator. *)
Theorem build_url_same_iff (self : Client Store) (x y : string) :
  build_url x self = build_url y self <->
  (if String.prefix "/" x then x else "/" +:+ x) =
  (if String.prefix "/" y then y else "/" +:+ y).
Proof.
  rewrite !build_url_eq. split.
  - intros Heq. injection Heq as Heq. by apply append_inj_l in Heq.
  - by intros ->.
Qed.

End BuildUrlMore.

(** ** The constructor *)

Section ConstructionProperties.

Context {Store : Type}.
Variable Middleware : Type.
Variable AsyncClient : Type.
Variable Timeout : Type.
Variable url_valid : string -> bool.
Variable new_client :
  gmap string string -> gmap string string -> option Timeout -> AsyncClient.

Implicit Types (registry : list (string * Middleware)) (client : AsyncClient).

Lemma registry_get_app registry rest name cls :
  name ∉ map fst registry ->
  registry_get (registry ++ (name, cls) :: rest) name = Some cls.
Proof.
  induction registry as [|[n c] registry IH]; simpl; intros Hnotin.
  - by rewrite String.eqb_refl.
  - apply not_elem_of_cons in Hnotin as [Hne Hnotin].
    destruct (String.eqb_spec n name) as [->|_]; [done|]. by apply IH.
Qed.

(** The loop registers the names in order until one is unknown. *)
Lemma add_wares_known registry client names added :
  Forall (fun name => is_Some (registry_get registry name)) names ->
  exists classes,
    add_wares registry client names added =
      Return (added ++ map (fun cls => mkInstance cls client) classes) /\
    Forall2 (fun name cls => registry_get registry name = Some cls) names classes.
Proof.
  intros Hknown. revert added.
  induction Hknown as [|name names [cls Hcls] _ IH]; intros added; simpl.
  - exists []. by rewrite app_nil_r.
  - rewrite Hcls. destruct (IH (added ++ [mkInstance cls client]))
      as (classes & -> & Hall).
    exists (cls :: classes). rewrite <- app_assoc. split; [done|].
    by constructor.
Qed.

Lemma add_wares_unknown registry client known unknown rest added :
  Forall (fun name => is_Some (registry_get registry name)) known ->
  registry_get registry unknown = None ->
  add_wares registry client (known ++ unknown :: rest) added =
    Raise (KeyError unknown).
Proof.
  intros Hknown Hunknown. revert added.
  induction Hknown as [|name names [cls Hcls] _ IH]; intros added; simpl.
  - by rewrite Hunknown.
  - rewrite Hcls. apply IH.
Qed.

Lemma add_wares_all done_ registry client added :
  NoDup (map fst (done_ ++ registry)) ->
  add_wares (done_ ++ registry) client (map fst registry) added =
    Return (added ++ map (fun entry => mkInstance entry.2 client) registry).
Proof.
  revert done_ added.
  induction registry as [|[name cls] registry IH]; intros done_ added Hnodup; simpl.
  - by rewrite app_nil_r.
  - rewrite registry_get_app.
    + replace (done_ ++ (name, cls) :: registry)
        with ((done_ ++ [(name, cls)]) ++ registry) by by rewrite <- app_assoc.
      rewrite IH; [by rewrite <- app_assoc|]. by rewrite <- app_assoc.
    + rewrite map_app in Hnodup. apply NoDup_app in Hnodup as (_ & Hdisj & _).
      intros Hin. apply (Hdisj name Hin). simpl. left.
Qed.

(** X13: with an explicit list of known middleware names the constructor
    succeeds and has passed to [add_middleware] one instance per name, in
    the order of the list: the i-th instance is of the class registered
    under the i-th name, and all of them hold the client's own httpx
    client.  The empty list registers nothing. *)
Theorem init_registers_in_order
  registry base_url headers cookies given timeout
  (token_store : option Store) names :
  url_valid base_url = true ->
  Forall (fun name => is_Some (registry_get registry name)) names ->
  exists constructed,
    __init__ url_valid new_client registry base_url
      headers cookies given timeout token_store (Some names) = Return constructed /\
    c_base_url constructed = base_url /\
    c_token_store constructed = token_store /\
    c_client constructed = default (new_client headers cookies timeout) given /\
    length (c_added constructed) = length names /\
    (forall i name, names !! i = Some name ->
       exists cls,
         registry_get registry name = Some cls /\
         c_added constructed !! i = Some (mkInstance cls (c_client constructed))).
Proof.
  intros Hurl Hknown. unfold __init__. rewrite Hurl. simpl negb. cbv iota.
  destruct (add_wares_known registry
              (match given with
               | Some g => g
               | None => new_client headers cookies timeout
               end) names [] Hknown) as (classes & -> & Hall).
  eexists. split; [reflexivity|]. simpl.
  split_and!; try done.
  - rewrite length_map. symmetry. by eapply Forall2_length.
  - intros i name Hi.
    destruct (Forall2_lookup_l _ _ _ _ _ Hall Hi) as (cls & Hcls & Hget).
    exists cls. split; [done|]. by rewrite list_lookup_fmap, Hcls.
Qed.

(** X14: a name that is not in the registry makes the constructor raise the
    [KeyError] of the first such name. *)
Theorem init_unknown_middleware
  registry base_url headers cookies given timeout
  (token_store : option Store) known unknown rest :
  url_valid base_url = true ->
  Forall (fun name => is_Some (registry_get registry name)) known ->
  registry_get registry unknown = None ->
  __init__ url_valid new_client registry base_url
    headers cookies given timeout token_store (Some (known ++ unknown :: rest)) =
    Raise (KeyError unknown).
Proof.
  intros Hurl Hknown Hunknown. unfold __init__. rewrite Hurl. simpl negb. cbv iota.
  by rewrite add_wares_unknown.
Qed.

(** X15: without a list of names the constructor registers every entry of the
    registry once, in registry order, and cannot raise a [KeyError]. *)
Theorem init_default_registers_all
  registry base_url headers cookies given timeout (token_store : option Store) :
  url_valid base_url = true ->
  NoDup (map fst registry) ->
  __init__ url_valid new_client registry base_url
    headers cookies given timeout token_store None =
    Return
      (mkConstructed base_url
         (default (new_client headers cookies timeout) given)
         token_store
         (map (fun entry =>
                 mkInstance entry.2 (default (new_client headers cookies timeout) given))
            registry)).
Proof.
  intros Hurl Hnodup. unfold __init__. rewrite Hurl. simpl negb. cbv iota.
  pose proof (add_wares_all [] registry
                (default (new_client headers cookies timeout) given) []
                Hnodup) as Hall.
  simpl in Hall. destruct given as [g|]; simpl in *; by rewrite Hall.
Qed.

End ConstructionProperties.

(** ** The generated methods *)

Section EndpointProperties.

Context {Store : Type} `{TokenStore Store}.
Variable settings : Settings.
Variable py_repr : pyvalue -> string.
Variable Model : Type.
Variable model_validate : string -> pyvalue -> option Model.

Implicit Types (self : Client Store) (st : Store) (resp : Response)
  (ep : endpoint Store Model).

(** Every row of the table is an instance of the template, its path starts
    with a separator, and the data of a [post] row is the serialized body
    argument. *)
Lemma generated_endpoints_rows
  query_arguments domain_name did_id vc_id vp_id task_id trustprofile schema_name
  body :
  Forall (fun ep =>
            ep_call ep = dispatch settings py_repr Model model_validate ep /\
            String.prefix "/" (ep_path ep) = true /\
            (ep_verb ep = "POST" -> ep_data ep = serialize py_repr body))
    (generated_endpoints settings py_repr Model model_validate query_arguments
       domain_name did_id vc_id vp_id task_id trustprofile schema_name body).
Proof.
  unfold generated_endpoints.
  repeat apply Forall_cons_2; [..|apply Forall_nil_2];
    (split; [reflexivity|split; [reflexivity|]];
     intros Hverb; first [discriminate Hverb | reflexivity]).
Qed.

Lemma dispatch_rejected ep self :
  rejects_locally ep = true ->
  dispatch settings py_repr Model model_validate ep self =
    (Raise (RequestException 400
              "Post requests must either send an upload_file or data."), self).
Proof.
  unfold rejects_locally. intros [Hpost Hdata]%andb_true_iff.
  unfold dispatch, bind, post. rewrite Hpost. simpl truthy. simpl negb.
  by rewrite Hdata.
Qed.

Lemma dispatch_sends ep :
  rejects_locally ep = false ->
  dispatch settings py_repr Model model_validate ep =
    (let* resp :=
       send settings py_repr (ep_verb ep) (ep_path ep) (ep_data ep) PNone
         (Some (ep_params ep)) None None in
     match ep_model ep with
     | Some cls => validated Model model_validate cls resp
     | None => rendered py_repr Model resp
     end).
Proof.
  unfold rejects_locally, dispatch. intros Hrej.
  destruct (String.eqb_spec (ep_verb ep) "POST") as [Hpost|_]; [|done].
  simpl in Hrej. unfold post. simpl truthy. simpl negb. rewrite Hrej.
  by rewrite Hpost.
Qed.

(** What parsing makes of a response; the client is not touched. *)
Lemma parse_run (model : option string) resp self :
  match model with
  | Some cls => validated Model model_validate cls resp
  | None => rendered py_repr Model resp
  end self =
    (match body_json resp with
     | None =>
         match model, json_failure resp with
         | Some _, ValidationError =>
             Raise (EnsureException
                      ("The response came back in an unexpected format: "
                       +:+ text resp))
         | _, e => Raise e
         end
     | Some content =>
         match model with
         | Some cls =>
             match model_validate cls content with
             | Some m => Return (Validated m)
             | None =>
                 Raise (EnsureException
                          ("The response came back in an unexpected format: "
                           +:+ text resp))
             end
         | None => Return (Rendered (py_str py_repr content))
         end
     end, self).
Proof.
  destruct model as [cls|].
  - unfold validated, try_except, bind, resp_json, raise, ret.
    destruct (body_json resp) as [content|]; simpl.
    + by destruct (model_validate cls content).
    + by destruct (json_failure resp).
  - unfold rendered, bind, resp_json, raise, ret.
    destruct (body_json resp); [done|]. by destruct (json_failure resp).
Qed.

Lemma dispatch_without_store ep self :
  rejects_locally ep = false ->
  token_store self = None ->
  dispatch settings py_repr Model model_validate ep self =
    (Raise (LookupError "No token_path store registered to this client"), self).
Proof.
  intros Hrej Hts. rewrite (dispatch_sends _ Hrej). unfold bind.
  by rewrite send_without_store.
Qed.

(** A method that handed a request over was not rejected locally and ran
    on a client with a store; httpx built the request from the row. *)
Lemma dispatch_handed_inv ep self request :
  String.prefix "/" (ep_path ep) = true ->
  mm_handed (middleware_manager
    (dispatch settings py_repr Model model_validate ep self).2) =
    mm_handed (middleware_manager self) ++ [request] ->
  exists st,
    rejects_locally ep = false /\ token_store self = Some st /\
    request = {| method := ep_verb ep;
      url := _base_url self +:+ ep_path ep;
      data := if is_none (ep_data ep) then PDict [] else ep_data ep;
      files := PNone;
      params := Some (ep_params ep);
      headers :=
        Some (if truthy (get_token st (CLIENT_ID settings))
              then {[ "Authorization" :=
            "Bearer " +:+
            py_str py_repr
              (get_token st (CLIENT_ID settings)) ]}
              else ∅);
      cookies := Some ∅ |} /\
    mm_handed (middleware_manager
      (send settings py_repr (ep_verb ep) (ep_path ep) (ep_data ep) PNone
         (Some (ep_params ep)) None None self).2) =
      mm_handed (middleware_manager self) ++ [request] /\
    (dispatch settings py_repr Model model_validate ep self).1 =
      match (send settings py_repr (ep_verb ep) (ep_path ep) (ep_data ep) PNone
               (Some (ep_params ep)) None None self).1 with
      | Return resp =>
          (match ep_model ep with
           | Some cls => validated Model model_validate cls resp
           | None => rendered py_repr Model resp
           end self).1
      | Raise e => Raise e
      end.
Proof.
  intros Hpath Hhanded.
  destruct (rejects_locally ep) eqn:Hrej.
  { rewrite dispatch_rejected in Hhanded by done.
    by apply app_singleton_neq in Hhanded. }
  rewrite (dispatch_sends _ Hrej) in *.
  rewrite parse_after_call in Hhanded
    by (intros resp self'; by rewrite parse_run).
  destruct (send_handed_inv _ _ _ _ _ _ _ _ _ _ _ Hhanded)
    as (st & Hts & Hrequest & _).
  exists st. rewrite Hpath in Hrequest. split_and!; try done.
  unfold bind.
  destruct (send _ _ _ _ _ _ _ _ _ self) as [[resp|e] self']; [|done].
  simpl. by rewrite (parse_run (ep_model ep) resp self'),
                    (parse_run (ep_model ep) resp self).
Qed.

(** X16: the failures a generated method produces before it builds a
    request.  A method that goes through [post] (its data is then the
    serialized body argument) and whose serialized body is empty raises
    the malformed-request error.  Any other call, on a client without a
    token store, raises the lookup error.  In both cases the client is
    left as it was. *)
Theorem generated_local_failures
  self query_arguments domain_name did_id vc_id vp_id task_id trustprofile
  schema_name body :
  Forall (fun ep =>
            (ep_verb ep = "POST" -> ep_data ep = serialize py_repr body) /\
            (ep_verb ep = "POST" -> truthy (ep_data ep) = false ->
               ep_call ep self =
                 (Raise (RequestException 400
                           "Post requests must either send an upload_file or data."),
                  self)) /\
            (ep_verb ep <> "POST" \/ truthy (ep_data ep) = true ->
             token_store self = None ->
               ep_call ep self =
                 (Raise (LookupError "No token_path store registered to this client"),
                  self)))
    (generated_endpoints settings py_repr Model model_validate query_arguments
       domain_name did_id vc_id vp_id task_id trustprofile schema_name body).
Proof.
  eapply Forall_impl; [apply generated_endpoints_rows|].
  intros ep (Hcall & _ & Hpost). simpl. rewrite Hcall. split_and!.
  - done.
  - intros Hverb Hdata. apply dispatch_rejected. unfold rejects_locally.
    by rewrite Hverb, Hdata.
  - intros Hother Hts. apply dispatch_without_store; [|done].
    unfold rejects_locally. destruct Hother as [Hverb | ->].
    + by rewrite (proj2 (String.eqb_neq _ _) Hverb).
    + apply andb_false_r.
Qed.

(** X17: every request that a generated method hands to the manager was
    built from its table row: the row's verb and parameters, the base URL
    directly followed by the row's path, no files, empty cookies, and as
    headers the bearer token alone when the store yields one and nothing
    otherwise.  A method without a body sends an empty dict as [data]; a
    write method sends its serialized body, empty or not. *)
Theorem generated_request
  self query_arguments domain_name did_id vc_id vp_id task_id trustprofile
  schema_name body :
  Forall (fun ep =>
            forall request,
              mm_handed (middleware_manager (ep_call ep self).2) =
                mm_handed (middleware_manager self) ++ [request] ->
              exists st,
                token_store self = Some st /\
                request =
                  {| method := ep_verb ep;
                    url := _base_url self +:+ ep_path ep;
                    data := if is_none (ep_data ep) then PDict [] else ep_data ep;
                    files := PNone;
                    params := Some (ep_params ep);
                    headers :=
                        Some (if truthy (get_token st (CLIENT_ID settings))
                              then {[ "Authorization" :=
                                        "Bearer " +:+
                                        py_str py_repr
                                          (get_token st (CLIENT_ID settings)) ]}
                              else ∅);
                    cookies := Some ∅ |})
    (generated_endpoints settings py_repr Model model_validate query_arguments
       domain_name did_id vc_id vp_id task_id trustprofile schema_name body).
Proof.
  eapply Forall_impl; [apply generated_endpoints_rows|].
  intros ep (Hcall & Hpath & _) request. simpl. rewrite Hcall. intros Hhanded.
  destruct (dispatch_handed_inv ep self request Hpath Hhanded)
    as (st & _ & Hts & -> & _).
  by exists st.
Qed.

(** X18: what a generated method makes of a response below 300.  When
    [resp.json()] raises ([JSONDecodeError] for a body that is not JSON,
    such as an empty one, [UnicodeDecodeError] for one that is not valid
    UTF-8), its exception comes out of the method; only a
    [ValidationError] would be turned into an [EnsureException], by a
    validating method.  A validating method returns the model its class
    validates the body to, and raises an [EnsureException] quoting the
    response text when validation fails.  The other methods return the
    [str()] of the body. *)
Theorem generated_success
  self query_arguments domain_name did_id vc_id vp_id task_id trustprofile
  schema_name body :
  Forall (fun ep =>
            forall request resp,
              mm_handed (middleware_manager (ep_call ep self).2) =
                mm_handed (middleware_manager self) ++ [request] ->
              (mm_behaviour (middleware_manager self) request).1 = Return resp ->
              status_code resp < 300 ->
              (ep_call ep self).1 =
                match body_json resp with
                | None =>
                    match ep_model ep, json_failure resp with
                    | Some _, ValidationError =>
                        Raise (EnsureException
                                 ("The response came back in an unexpected format: "
                                  +:+ text resp))
                    | _, e => Raise e
                    end
                | Some content =>
                    match ep_model ep with
                    | Some cls =>
                        match model_validate cls content with
                        | Some m => Return (Validated m)
                        | None =>
                            Raise (EnsureException
                                     ("The response came back in an unexpected format: "
                                      +:+ text resp))
                        end
                    | None => Return (Rendered (py_str py_repr content))
                    end
                end)
    (generated_endpoints settings py_repr Model model_validate query_arguments
       domain_name did_id vc_id vp_id task_id trustprofile schema_name body).
Proof.
  eapply Forall_impl; [apply generated_endpoints_rows|].
  intros ep (Hcall & Hpath & _) request resp. simpl. rewrite Hcall.
  intros Hhanded Hresp Hstatus.
  destruct (dispatch_handed_inv ep self request Hpath Hhanded)
    as (st & _ & _ & _ & Hsent & ->).
  rewrite (send_outcome _ _ _ _ _ _ _ _ _ _ _ Hsent), Hresp.
  rewrite Z.geb_leb, (proj2 (Z.leb_gt _ _) Hstatus).
  by rewrite parse_run.
Qed.

(** X19: failures of the exchange pass through a generated method unchanged:
    an exception of the middleware manager, and the [RequestException]
    that [send] raises for a response of 300 or more with a JSON object
    body. *)
Theorem generated_failure
  self query_arguments domain_name did_id vc_id vp_id task_id trustprofile
  schema_name body :
  Forall (fun ep =>
            forall request,
              mm_handed (middleware_manager (ep_call ep self).2) =
                mm_handed (middleware_manager self) ++ [request] ->
              (forall e,
                 (mm_behaviour (middleware_manager self) request).1 = Raise e ->
                 (ep_call ep self).1 = Raise e) /\
              (forall resp kvs,
                 (mm_behaviour (middleware_manager self) request).1 = Return resp ->
                 300 <= status_code resp ->
                 body_json resp = Some (PDict kvs) ->
                 (ep_call ep self).1 =
                   Raise (RequestException (status_code resp)
                            ("Request was unsuccessful: " +:+
                             match dict_get "detail" kvs with
                             | Some detail => py_str py_repr detail
                             | None => text resp
                             end))))
    (generated_endpoints settings py_repr Model model_validate query_arguments
       domain_name did_id vc_id vp_id task_id trustprofile schema_name body).
Proof.
  eapply Forall_impl; [apply generated_endpoints_rows|].
  intros ep (Hcall & Hpath & _) request. simpl. rewrite Hcall.
  intros Hhanded.
  destruct (dispatch_handed_inv ep self request Hpath Hhanded)
    as (st & _ & _ & _ & Hsent & ->).
  rewrite (send_outcome _ _ _ _ _ _ _ _ _ _ _ Hsent). split.
  - by intros e ->.
  - intros resp kvs -> Hstatus ->.
    by rewrite Z.geb_leb, (proj2 (Z.leb_le _ _) Hstatus).
Qed.

End EndpointProperties.

(** ** The verb methods *)

Section Verbs.

Context {Store : Type} `{TokenStore Store}.
Variable settings : Settings.
Variable py_repr : pyvalue -> string.

Implicit Types (self : Client Store) (st : Store).

(** X6: unlike [post], the methods [get], [put], [patch] and [delete] do no
    checking of their own: [put] and [patch] are [send] with their verb
    whatever body and file they are given, also with neither.  Every
    request handed over by one of the four carries its verb; those of
    [get] and [delete] have an empty dict as [data] and no files, those of
    [put] and [patch] the body (an empty dict when it is [None]) and the
    upload file. *)
Theorem verbs_hand_request self path body upload_file query caller_headers jar :
  put settings py_repr path body upload_file query caller_headers jar self =
    send settings py_repr "PUT" path body upload_file query caller_headers jar self /\
  patch settings py_repr path body upload_file query caller_headers jar self =
    send settings py_repr "PATCH" path body upload_file query caller_headers jar self /\
  forall request,
    (mm_handed (middleware_manager
       (get settings py_repr path query caller_headers jar self).2) =
       mm_handed (middleware_manager self) ++ [request] ->
     method request = "GET" /\ data request = PDict [] /\ files request = PNone) /\
    (mm_handed (middleware_manager
       (delete settings py_repr path query caller_headers jar self).2) =
       mm_handed (middleware_manager self) ++ [request] ->
     method request = "DELETE" /\ data request = PDict [] /\ files request = PNone) /\
    (mm_handed (middleware_manager
       (put settings py_repr path body upload_file query caller_headers jar self).2) =
       mm_handed (middleware_manager self) ++ [request] ->
     method request = "PUT" /\
     data request = (if is_none body then PDict [] else body) /\
     files request = upload_file) /\
    (mm_handed (middleware_manager
       (patch settings py_repr path body upload_file query caller_headers jar self).2) =
       mm_handed (middleware_manager self) ++ [request] ->
     method request = "PATCH" /\
     data request = (if is_none body then PDict [] else body) /\
     files request = upload_file).
Proof.
  split; [done|]. split; [done|]. intros request.
  unfold get, delete, put, patch.
  split_and!; intros Hhanded;
    destruct (send_handed_inv _ _ _ _ _ _ _ _ _ _ _ Hhanded) as (st & _ & -> & _);
    by split_and!.
Qed.

End Verbs.
(** * The further properties run on concrete clients *)

(** A path with a tab character on a client whose httpx client refuses
    such URLs: [send] raises [InvalidURL] and the manager is handed
    nothing. *)
Lemma send_invalid_url_hands_nothing :
  send demo_settings demo_repr "GET" ("/dids/" +:+ tab) PNone PNone None None None
    (mkClient "https://api.example.com" strict (Some (store_with (PStr "tok123")))
       (answering ok_response)) =
    (Raise (InvalidURL "Invalid non-printable ASCII character in URL"),
     mkClient "https://api.example.com" strict (Some (store_with (PStr "tok123")))
       (answering ok_response)).
Proof. reflexivity. Qed.

(** A run of [send_returns_iff]. *)
Lemma send_returns_iff_witness :
  (demo_get (demo_client (Some (store_with (PStr "tok123"))) ok_response) None).1 =
    Return ok_response.
Proof.
  apply (proj2 (send_returns_iff demo_settings demo_repr
                  (demo_client (Some (store_with (PStr "tok123"))) ok_response)
                  (store_with (PStr "tok123"))
                  "GET" "/dids/" PNone PNone None None None _ ok_response
                  eq_refl eq_refl eq_refl ok_response)).
  split; [simpl; lia|reflexivity].
Defined.

(** A run of [send_failure_body_not_object]: a body that is not valid
    UTF-8, and a JSON list. *)
Lemma send_failure_body_not_object_witness :
  (demo_get (demo_client (Some (store_with (PStr "tok123")))
               undecodable_response) None).1 = Raise UnicodeDecodeError /\
  (demo_get (demo_client (Some (store_with (PStr "tok123")))
               json_list_error_response) None).1 = Raise TypeError.
Proof.
  split.
  - refine (proj1 (send_failure_body_not_object demo_settings demo_repr
                     (demo_client (Some (store_with (PStr "tok123")))
                        undecodable_response)
                     (store_with (PStr "tok123"))
                     "GET" "/dids/" PNone PNone None None None _
                     undecodable_response eq_refl eq_refl eq_refl _) eq_refl).
    simpl. lia.
  - refine (proj2 (send_failure_body_not_object demo_settings demo_repr
                     (demo_client (Some (store_with (PStr "tok123")))
                        json_list_error_response)
                     (store_with (PStr "tok123"))
                     "GET" "/dids/" PNone PNone None None None _
                     json_list_error_response eq_refl eq_refl eq_refl _)
              (PList [PInt 1]) eq_refl _).
    + simpl. lia.
    + intros kvs Heq. discriminate Heq.
Defined.

(** A run of [send_propagates_manager_error]. *)
Lemma send_propagates_manager_error_witness :
  (demo_get
     (mkClient "https://api.example.com" accepting
        (Some (store_with (PStr "tok123")))
        (raising (OtherError "ConnectTimeout"))) None).1 =
    Raise (OtherError "ConnectTimeout").
Proof.
  exact (send_propagates_manager_error demo_settings demo_repr
           (mkClient "https://api.example.com" accepting
              (Some (store_with (PStr "tok123")))
              (raising (OtherError "ConnectTimeout")))
           (store_with (PStr "tok123"))
           "GET" "/dids/" PNone PNone None None None _ (OtherError "ConnectTimeout")
           eq_refl eq_refl eq_refl).
Defined.

(** A run of [send_builds_request]. *)
Lemma send_builds_request_witness :
  exists request,
    mm_handed (middleware_manager
      (demo_get (demo_client (Some (store_with (PStr "tok123"))) ok_response)
         None).2) = [request] /\
    method request = "GET" /\
    url request = "https://api.example.com/dids/" /\
    data request = PDict [].
Proof.
  eexists. split; [reflexivity|].
  destruct (send_builds_request demo_settings demo_repr
              (demo_client (Some (store_with (PStr "tok123"))) ok_response)
              "GET" "/dids/" PNone PNone None None None _ eq_refl)
    as (Hmethod & Hurl & Hdata & _).
  split; [exact Hmethod|]. split; [reflexivity|exact Hdata].
Defined.

(** A run of [authorise_request]. *)
Lemma authorise_request_witness :
  exists request,
    mm_handed (middleware_manager
      (demo_authorise
         (demo_client (Some (store_with (PStr "old"))) token_response)).2) =
      [request] /\
    url request = "https://auth.example.com/token" /\
    headers request = Some ∅.
Proof.
  eexists. split; [reflexivity|].
  destruct (authorise_request demo_settings
              (demo_client (Some (store_with (PStr "old"))) token_response)
              (TOKEN_URL demo_settings) None _ eq_refl)
    as (_ & Hurl & _ & Hheaders & _).
  split; [exact Hurl|exact Hheaders].
Defined.

(** A run of [authorise_success]. *)
Lemma authorise_success_witness :
  (demo_authorise (demo_client (Some ∅) token_response)).1 = Return tt /\
  token_store (demo_authorise (demo_client (Some ∅) token_response)).2 =
    Some (store_with (PStr "tok123")).
Proof.
  destruct (authorise_success demo_settings
              (demo_client (Some ∅) token_response) ∅
              (TOKEN_URL demo_settings) None _ token_response
              [("access_token", PStr "tok123"); ("expires_at", PInt 1700000000)]
              (PStr "tok123") (PInt 1700000000)
              eq_refl eq_refl eq_refl eq_refl eq_refl eq_refl eq_refl)
    as (Hret & Hstore & _).
  split; [exact Hret|exact Hstore].
Defined.

(** A run of [authorise_raise_keeps_store]. *)
Lemma authorise_raise_keeps_store_witness :
  token_store
    (demo_authorise
       (demo_client (Some (store_with (PStr "old"))) unauthorized_response)).2 =
    Some (store_with (PStr "old")).
Proof.
  exact (authorise_raise_keeps_store demo_settings
           (demo_client (Some (store_with (PStr "old"))) unauthorized_response)
           (TOKEN_URL demo_settings) None
           (RequestException 401 "Authorization failed: invalid client")
           eq_refl).
Defined.


(** A run of [authorise_then_send]. *)
Lemma authorise_then_send_witness :
  exists first second,
    mm_handed (middleware_manager
      (demo_get (demo_authorise (demo_client (Some ∅) token_response)).2
         (Some {[ "X-Trace" := "1" ]})).2) = [first; second] /\
    url first = TOKEN_URL demo_settings /\
    headers second = Some {[ "Authorization" := "Bearer tok123" ]}.
Proof.
  eexists _, _. split; [reflexivity|]. split; [reflexivity|].
  exact (authorise_then_send demo_settings demo_repr
           (demo_client (Some ∅) token_response) ∅
           (TOKEN_URL demo_settings) None _ token_response
           [("access_token", PStr "tok123"); ("expires_at", PInt 1700000000)]
           "tok123" (PInt 1700000000)
           "GET" "/dids/" PNone PNone None (Some {[ "X-Trace" := "1" ]}) None _
           eq_refl eq_refl eq_refl eq_refl eq_refl eq_refl
           ltac:(discriminate) eq_refl eq_refl).
Defined.

(** A run of [init_registers_in_order]. *)
Lemma init_registers_in_order_witness :
  exists constructed,
    __init__ (Store := MemoryTokenStore) demo_url_valid demo_new_client
      demo_registry "https://api.example.com" ∅ ∅ None None None
      (Some ["retry"; "auth"; "retry"]) = Return constructed /\
    length (c_added constructed) = 3%nat.
Proof.
  destruct (init_registers_in_order (Store := MemoryTokenStore)
              string nat Z demo_url_valid demo_new_client
              demo_registry "https://api.example.com" ∅ ∅ None None None
              ["retry"; "auth"; "retry"] eq_refl)
    as (constructed & Hinit & _ & _ & _ & Hlen & _).
  { repeat constructor; by eexists. }
  exists constructed. split; [exact Hinit|exact Hlen].
Defined.

(** A run of [init_unknown_middleware]. *)
Lemma init_unknown_middleware_witness :
  __init__ (Store := MemoryTokenStore) demo_url_valid demo_new_client
    demo_registry "https://api.example.com" ∅ ∅ None None None
    (Some ["auth"; "cache"; "retry"]) = Raise (KeyError "cache").
Proof.
  apply (init_unknown_middleware (Store := MemoryTokenStore)
           string nat Z demo_url_valid demo_new_client
           demo_registry "https://api.example.com" ∅ ∅ None None None
           ["auth"] "cache" ["retry"] eq_refl).
  - repeat constructor. by eexists.
  - reflexivity.
Defined.

(** A run of [init_default_registers_all]. *)
Lemma init_default_registers_all_witness :
  __init__ (Store := MemoryTokenStore) demo_url_valid demo_new_client
    demo_registry "https://api.example.com" ∅ ∅ (Some 7%nat) None None None =
    Return
      (mkConstructed "https://api.example.com" 7%nat None
         [mkInstance "AuthMiddleware" 7%nat; mkInstance "RetryMiddleware" 7%nat]).
Proof.
  apply (init_default_registers_all (Store := MemoryTokenStore)
           string nat Z demo_url_valid demo_new_client
           demo_registry "https://api.example.com" ∅ ∅ (Some 7%nat) None None
           eq_refl).
  apply NoDup_cons. split; [by intros [?|?%elem_of_nil]%elem_of_cons|].
  apply NoDup_cons. split; [by intros ?%elem_of_nil|]. apply NoDup_nil_2.
Defined.

(** A run of [generated_local_failures]. *)
Lemma generated_local_failures_witness :
  verify_vc demo_settings demo_repr unit demo_validate (OtherObject (PStr ""))
    (demo_client (Some (store_with (PStr "tok123"))) ok_response) =
    (Raise (RequestException 400
              "Post requests must either send an upload_file or data."),
     demo_client (Some (store_with (PStr "tok123"))) ok_response) /\
  get_task demo_settings demo_repr unit demo_validate "task-1" "acme"
    (demo_client None ok_response) =
    (Raise (LookupError "No token_path store registered to this client"),
     demo_client None ok_response).
Proof.
  split.
  - pose proof (generated_local_failures demo_settings demo_repr unit demo_validate
                  (demo_client (Some (store_with (PStr "tok123"))) ok_response)
                  demo_query "acme" "did:example:1" "vc-1" "vp-1" "task-1"
                  "profile-1" "schema-1" (OtherObject (PStr ""))) as Hall.
    destruct (Forall_lookup_1 _ _ 40%nat _ Hall eq_refl) as (_ & Hrejected & _).
    exact (Hrejected eq_refl eq_refl).
  - pose proof (generated_local_failures demo_settings demo_repr unit demo_validate
                  (demo_client None ok_response)
                  demo_query "acme" "did:example:1" "vc-1" "vp-1" "task-1"
                  "profile-1" "schema-1" (OtherObject (PStr ""))) as Hall.
    destruct (Forall_lookup_1 _ _ 39%nat _ Hall eq_refl) as (_ & _ & Hlookup).
    apply Hlookup; [|reflexivity]. left. discriminate.
Defined.

(** A run of [generated_request]. *)
Lemma generated_request_witness :
  exists request,
    mm_handed (middleware_manager
      (update_did demo_settings demo_repr unit "did:example:1" "acme"
         (OtherObject (PStr ""))
         (demo_client (Some (store_with (PStr "tok123"))) ok_response)).2) =
      [request] /\
    method request = "PUT" /\
    url request = "https://api.example.com/domains/acme/dids/did:example:1" /\
    data request = PStr "" /\
    headers request = Some {[ "Authorization" := "Bearer tok123" ]}.
Proof.
  pose proof (generated_request demo_settings demo_repr unit demo_validate
                (demo_client (Some (store_with (PStr "tok123"))) ok_response)
                demo_query "acme" "did:example:1" "vc-1" "vp-1" "task-1"
                "profile-1" "schema-1" (OtherObject (PStr ""))) as Hall.
  eexists. split; [reflexivity|].
  destruct (Forall_lookup_1 _ _ 22%nat _ Hall eq_refl _ eq_refl)
    as (st & Hts & Hrequest).
  injection Hts as <-. by split_and!.
Defined.

(** A run of [generated_success]. *)
Lemma generated_success_witness :
  (revoke_did demo_settings demo_repr unit "did:example:1" "acme"
     (demo_client (Some (store_with (PStr "tok123"))) no_content_response)).1 =
    Raise JSONDecodeError /\
  (whoamai demo_settings demo_repr unit demo_validate
     (demo_client (Some (store_with (PStr "tok123"))) ok_response)).1 =
    Return (Validated tt).
Proof.
  split.
  - pose proof (generated_success demo_settings demo_repr unit demo_validate
                  (demo_client (Some (store_with (PStr "tok123"))) no_content_response)
                  demo_query "acme" "did:example:1" "vc-1" "vp-1" "task-1"
                  "profile-1" "schema-1" (OtherObject (PStr ""))) as Hall.
    refine (Forall_lookup_1 _ _ 23%nat _ Hall eq_refl _ no_content_response
              eq_refl eq_refl _).
    simpl. lia.
  - pose proof (generated_success demo_settings demo_repr unit demo_validate
                  (demo_client (Some (store_with (PStr "tok123"))) ok_response)
                  demo_query "acme" "did:example:1" "vc-1" "vp-1" "task-1"
                  "profile-1" "schema-1" (OtherObject (PStr ""))) as Hall.
    refine (Forall_lookup_1 _ _ 12%nat _ Hall eq_refl _ ok_response
              eq_refl eq_refl _).
    simpl. lia.
Defined.

(** A run of [generated_failure]. *)
Lemma generated_failure_witness :
  (get_vc demo_settings demo_repr unit demo_validate "vc-1" "acme"
     (demo_client (Some (store_with (PStr "tok123"))) not_found_response)).1 =
    Raise (RequestException 404 "Request was unsuccessful: Not found").
Proof.
  pose proof (generated_failure demo_settings demo_repr unit demo_validate
                (demo_client (Some (store_with (PStr "tok123"))) not_found_response)
                demo_query "acme" "did:example:1" "vc-1" "vp-1" "task-1"
                "profile-1" "schema-1" (OtherObject (PStr ""))) as Hall.
  destruct (Forall_lookup_1 _ _ 28%nat _ Hall eq_refl _ eq_refl) as [_ Hfail].
  refine (Hfail not_found_response [("detail", PStr "Not found")] eq_refl _ eq_refl).
  simpl. lia.
Defined.

(** A run of [verbs_hand_request]. *)
Lemma verbs_hand_request_witness :
  exists request,
    mm_handed (middleware_manager
      (put demo_settings demo_repr "/domains/acme/vcs/vc-1/accept/" PNone PNone
         None None None
         (demo_client (Some (store_with (PStr "tok123"))) ok_response)).2) =
      [request] /\
    method request = "PUT" /\ data request = PDict [].
Proof.
  eexists. split; [reflexivity|].
  destruct (verbs_hand_request demo_settings demo_repr
              (demo_client (Some (store_with (PStr "tok123"))) ok_response)
              "/domains/acme/vcs/vc-1/accept/" PNone PNone None None None)
    as (_ & _ & Hall).
  edestruct Hall as (_ & _ & Hput & _).
  destruct (Hput eq_refl) as (Hmethod & Hdata & _).
  split; [exact Hmethod|exact Hdata].
Defined.
